(** * Task store and request pipeline of the task-management assistant

    A shallow embedding of [tools/task_tools.py] (the in-memory task store)
    and of [agents/google_adk_agent.py] (classifier, parameter extractor,
    dispatcher and request pipeline), followed by the properties of the
    specification that concern them.

    Conventions of the embedding.
    - Python values that reach the store come from [json.loads] or from
      default arguments; they are modelled by [Py.pyval] (None, booleans,
      integers, strings, lists, dictionaries).  JSON floats are left out.
    - The module-level list [tasks_db] is passed explicitly: every store
      operation takes the list and returns its result with the new list.
    - [datetime.now().isoformat()] is an input: the operations that read
      the clock take the timestamp string [now].
    - [log_agent_event], [create_trace] and [end_span] swallow every
      exception and return nothing; they do not appear in the model.
    - Text is a [string] of bytes; [lower] and [strip] act on the ASCII
      range. *)

From Stdlib Require Import ZArith List String Ascii Bool Lia FinFun.
Import ListNotations.
Local Open Scope string_scope.
Local Open Scope Z_scope.

(* ================================================================== *)
(** ** Python values *)
(* ================================================================== *)

Module Py.

#[local] Set Warnings "-register-all".


Inductive pyval : Type :=
| PNone
| PBool (b : bool)
| PInt (z : Z)
| PStr (s : string)
| PList (items : list pyval)
| PDict (kvs : list (string * pyval)).

(** [bool(v)]: the truth value Python gives to [v] in [if v:]. *)
Definition truthy (v : pyval) : bool :=
  match v with
  | PNone => false
  | PBool b => b
  | PInt z => negb (z =? 0)
  | PStr s => negb (s =? "")%string
  | PList items => match items with [] => false | _ :: _ => true end
  | PDict kvs => match kvs with [] => false | _ :: _ => true end
  end.

(** First binding of [key] in a dictionary. *)
Fixpoint assoc (key : string) (kvs : list (string * pyval)) : option pyval :=
  match kvs with
  | [] => None
  | (k, v) :: rest => if (k =? key)%string then Some v else assoc key rest
  end.

Definition int_of_bool (b : bool) : Z := if b then 1 else 0.

(** [a == b].  Booleans compare with integers by value; values of
    different kinds are unequal; lists compare element by element and
    dictionaries binding by binding. *)
Fixpoint py_eq (a b : pyval) {struct a} : bool :=
  match a, b with
  | PNone, PNone => true
  | PBool x, PBool y => Bool.eqb x y
  | PBool x, PInt y => int_of_bool x =? y
  | PInt x, PBool y => x =? int_of_bool y
  | PInt x, PInt y => x =? y
  | PStr x, PStr y => (x =? y)%string
  | PList xs, PList ys =>
      (fix all2 (xs ys : list pyval) {struct xs} : bool :=
         match xs, ys with
         | [], [] => true
         | x :: xs', y :: ys' => py_eq x y && all2 xs' ys'
         | _, _ => false
         end) xs ys
  | PDict xs, PDict ys =>
      (List.length xs =? List.length ys)%nat &&
      forallb (fun kv => match assoc (fst kv) ys with
                         | Some w => py_eq (snd kv) w
                         | None => false
                         end) xs
  | _, _ => false
  end.

(** Exceptions, with the text [str(e)] gives. *)
Inductive exn : Type :=
| AttributeError (msg : string)
| JSONDecodeError (msg : string)
| Exception (msg : string).

Definition str_exn (e : exn) : string :=
  match e with
  | AttributeError msg => msg
  | JSONDecodeError msg => msg
  | Exception msg => msg
  end.

Definition type_name (v : pyval) : string :=
  match v with
  | PNone => "NoneType"
  | PBool _ => "bool"
  | PInt _ => "int"
  | PStr _ => "str"
  | PList _ => "list"
  | PDict _ => "dict"
  end.

(** [params.get(key, default)]: only a dictionary has the method. *)
Definition get (params : pyval) (key : string) (default : pyval) : exn + pyval :=
  match params with
  | PDict kvs => inr (match assoc key kvs with Some v => v | None => default end)
  | _ => inl (AttributeError ("'" ++ type_name params ++ "' object has no attribute 'get'"))
  end.

End Py.

Import Py.

(* ================================================================== *)
(** ** The task store: tools/task_tools.py *)
(* ================================================================== *)

Module TaskTools.

(** A task dictionary.  [id] is always the integer [create_task] computed;
    the other fields hold whatever the caller passed. *)
Record task : Type := mk_task {
  id : Z;
  title : pyval;
  description : pyval;
  priority : pyval;
  due_date : pyval;
  status : pyval;
  created_at : string;
  completed_at : pyval
}.

Definition set_title (t : task) (v : pyval) : task :=
  mk_task (id t) v (description t) (priority t) (due_date t) (status t)
          (created_at t) (completed_at t).
Definition set_description (t : task) (v : pyval) : task :=
  mk_task (id t) (title t) v (priority t) (due_date t) (status t)
          (created_at t) (completed_at t).
Definition set_priority (t : task) (v : pyval) : task :=
  mk_task (id t) (title t) (description t) v (due_date t) (status t)
          (created_at t) (completed_at t).
Definition set_status (t : task) (v : pyval) : task :=
  mk_task (id t) (title t) (description t) (priority t) (due_date t) v
          (created_at t) (completed_at t).
Definition set_due_date (t : task) (v : pyval) : task :=
  mk_task (id t) (title t) (description t) (priority t) v (status t)
          (created_at t) (completed_at t).
Definition set_completed_at (t : task) (v : pyval) : task :=
  mk_task (id t) (title t) (description t) (priority t) (due_date t) (status t)
          (created_at t) v.

(** [tasks_db: List[Dict] = []] *)
Definition tasks_db : Type := list task.
Definition empty_db : tasks_db := [].

Definition len (db : tasks_db) : Z := Z.of_nat (List.length db).

(** [t["id"] == task_id] *)
Definition has_id (task_id : pyval) (t : task) : bool :=
  py_eq (PInt (id t)) task_id.

(** [create_task(title, description, priority, due_date)] *)
Definition create_task (title description priority due_date : pyval)
    (now : string) (db : tasks_db) : task * tasks_db :=
  let task :=
    {| id := len db + 1;
       title := title;
       description := description;
       priority := priority;
       due_date := due_date;
       status := PStr "pending";
       created_at := now;
       completed_at := PNone |} in
  (task, (db ++ [task])%list).

(** [list_tasks(status)] *)
Definition list_tasks (status_filter : pyval) (db : tasks_db) : list task :=
  if truthy status_filter
  then filter (fun t => py_eq (status t) status_filter) db
  else db.

(** [get_task(task_id)]: [next((t for t in tasks_db if ...), None)] *)
Definition get_task (task_id : pyval) (db : tasks_db) : option task :=
  find (has_id task_id) db.

(** The assignments of [update_task] on the dictionary it found. *)
Definition apply_updates (t : task)
    (title description priority status due_date : pyval) (now : string) : task :=
  let t := if truthy title then set_title t title else t in
  let t := if truthy description then set_description t description else t in
  let t := if truthy priority then set_priority t priority else t in
  let t :=
    if truthy status then
      let t := set_status t status in
      if py_eq status (PStr "completed")
      then set_completed_at t (PStr now)
      else t
    else t in
  let t := if truthy due_date then set_due_date t due_date else t in
  t.

(** The dictionary found by [next(...)] is an element of the list and is
    mutated in place: the first task with the id is replaced. *)
Fixpoint mutate_first (p : task -> bool) (f : task -> task) (db : tasks_db)
  : tasks_db :=
  match db with
  | [] => []
  | t :: rest => if p t then f t :: rest else t :: mutate_first p f rest
  end.

(** [update_task(task_id, title, description, priority, status, due_date)] *)
Definition update_task (task_id title description priority status due_date : pyval)
    (now : string) (db : tasks_db) : option task * tasks_db :=
  match find (has_id task_id) db with
  | None => (None, db)
  | Some found =>
      let upd t := apply_updates t title description priority status due_date now in
      (Some (upd found), mutate_first (has_id task_id) upd db)
  end.

(** [delete_task(task_id)] *)
Definition delete_task (task_id : pyval) (db : tasks_db) : bool * tasks_db :=
  let initial_count := len db in
  let db' := filter (fun t => negb (has_id task_id t)) db in
  if len db' <? initial_count then (true, db') else (false, db').

(** [get_tasks_by_priority(priority)] *)
Definition get_tasks_by_priority (prio : pyval) (db : tasks_db) : list task :=
  filter (fun t => py_eq (priority t) prio) db.

Record stats : Type := mk_stats {
  total : Z;
  pending : Z;
  in_progress : Z;
  completed : Z;
  high_priority : Z;
  medium_priority : Z;
  low_priority : Z
}.

(** [get_statistics()] *)
Definition get_statistics (db : tasks_db) : stats :=
  {| total := len db;
     pending := len (filter (fun t => py_eq (status t) (PStr "pending")) db);
     in_progress := len (filter (fun t => py_eq (status t) (PStr "in_progress")) db);
     completed := len (filter (fun t => py_eq (status t) (PStr "completed")) db);
     high_priority := len (filter (fun t => py_eq (priority t) (PStr "high")) db);
     medium_priority := len (filter (fun t => py_eq (priority t) (PStr "medium")) db);
     low_priority := len (filter (fun t => py_eq (priority t) (PStr "low")) db) |}.

(** *** Sequences of store operations *)

Inductive op : Type :=
| Create (title description priority due_date : pyval) (now : string)
| Update (task_id title description priority status due_date : pyval) (now : string)
| Delete (task_id : pyval).

Definition step (db : tasks_db) (o : op) : tasks_db :=
  match o with
  | Create ti de pr du now => snd (create_task ti de pr du now db)
  | Update i ti de pr st du now => snd (update_task i ti de pr st du now db)
  | Delete i => snd (delete_task i db)
  end.

Definition run (ops : list op) (db : tasks_db) : tasks_db :=
  fold_left step ops db.

(** The ids handed out by the [Create] operations of a run, in order. *)
Fixpoint assigned_ids (ops : list op) (db : tasks_db) : list Z :=
  match ops with
  | [] => []
  | o :: rest =>
      match o with
      | Create ti de pr du now =>
          id (fst (create_task ti de pr du now db)) :: assigned_ids rest (step db o)
      | _ => assigned_ids rest (step db o)
      end
  end.

Definition ids (db : tasks_db) : list Z := map id db.

End TaskTools.

Import TaskTools.

(* ================================================================== *)
(** ** Text operations used by the agent *)
(* ================================================================== *)

Module Text.

Definition lower_char (c : ascii) : ascii :=
  let n := nat_of_ascii c in
  if ((65 <=? n) && (n <=? 90))%nat then ascii_of_nat (n + 32) else c.

(** [s.lower()] *)
Fixpoint lower (s : string) : string :=
  match s with
  | EmptyString => EmptyString
  | String c s' => String (lower_char c) (lower s')
  end.

(** [word in s]: [word] occurs in [s] as a contiguous substring. *)
Fixpoint str_in (word s : string) : bool :=
  prefix word s ||
  match s with
  | EmptyString => false
  | String _ s' => str_in word s'
  end.

(** [s.split(sep)] for a non-empty separator: [skip] counts the characters
    of a separator just matched that are still to be dropped, [cur] is the
    piece being collected. *)
Fixpoint split_go (sep : string) (skip : nat) (cur : string) (s : string)
  : list string :=
  match s with
  | EmptyString => [cur]
  | String c s' =>
      match skip with
      | S k => split_go sep k cur s'
      | O =>
          if prefix sep s
          then cur :: split_go sep (String.length sep - 1) EmptyString s'
          else split_go sep O (cur ++ String c EmptyString) s'
      end
  end.

Definition split (sep s : string) : list string :=
  split_go sep O EmptyString s.

(** Whitespace of [str.strip()] in the ASCII range. *)
Definition is_space (c : ascii) : bool :=
  let n := nat_of_ascii c in
  (((9 <=? n) && (n <=? 13)) || ((28 <=? n) && (n <=? 32)))%nat.

Fixpoint lstrip (s : string) : string :=
  match s with
  | EmptyString => EmptyString
  | String c s' => if is_space c then lstrip s' else s
  end.

Fixpoint rstrip (s : string) : string :=
  match s with
  | EmptyString => EmptyString
  | String c s' =>
      let r := rstrip s' in
      if is_space c && (r =? EmptyString)%string then EmptyString else String c r
  end.

(** [s.strip()] *)
Definition strip (s : string) : string := rstrip (lstrip s).

(** [parts[i]] *)
Definition index (parts : list string) (i : nat) : exn + string :=
  match nth_error parts i with
  | Some p => inr p
  | None => inl (Exception "list index out of range")
  end.

Definition nl : string := String "010"%char EmptyString.

End Text.

Import Text.

(* ================================================================== *)
(** ** The agent: agents/google_adk_agent.py *)
(* ================================================================== *)

Module GoogleADKAgent.

(** *** Intent classification *)

(** [{"action": ..., "request": user_request}] *)
Record parsed : Type := mk_parsed {
  action : string;
  request : string
}.

(** [any(word in request_lower for word in words)] *)
Definition any_in (words : list string) (request_lower : string) : bool :=
  existsb (fun word => str_in word request_lower) words.

Definition _parse_user_request (user_request : string) : parsed :=
  let request_lower := lower user_request in
  if any_in ["create"; "add"; "new task"] request_lower then
    {| action := "create"; request := user_request |}
  else if any_in ["list"; "show"; "get tasks"; "tasks"] request_lower then
    {| action := "list"; request := user_request |}
  else if any_in ["update"; "change"; "modify"; "mark"] request_lower then
    {| action := "update"; request := user_request |}
  else if any_in ["statistics"; "stats"; "summary"; "overview"] request_lower then
    {| action := "statistics"; request := user_request |}
  else if any_in ["delete"; "remove"] request_lower then
    {| action := "delete"; request := user_request |}
  else
    {| action := "general"; request := user_request |}.

(** *** The classification policy as the specification words it

    Keyword sets in priority order; a category matches when one of its
    keywords occurs in the lower-cased text; the first matching category
    wins and [general] is the answer when none matches. *)

Definition occurs (word s : string) : Prop :=
  exists before after, s = before ++ word ++ after.

Definition keyword_table : list (string * list string) :=
  [ ("create", ["create"; "add"; "new task"]);
    ("list", ["list"; "show"; "get tasks"; "tasks"]);
    ("update", ["update"; "change"; "modify"; "mark"]);
    ("statistics", ["statistics"; "stats"; "summary"; "overview"]);
    ("delete", ["delete"; "remove"]) ].

Definition category_matches (keywords : list string) (s : string) : Prop :=
  exists word, In word keywords /\ occurs word s.

Inductive first_match (s : string)
  : list (string * list string) -> string -> Prop :=
| first_match_none :
    first_match s [] "general"
| first_match_here tag keywords rest :
    category_matches keywords s ->
    first_match s ((tag, keywords) :: rest) tag
| first_match_later tag keywords rest answer :
    ~ category_matches keywords s ->
    first_match s rest answer ->
    first_match s ((tag, keywords) :: rest) answer.

(** *** The task store as the agent sees it: [self.task_tools] *)

Class TaskStore (S : Type) : Type := {
  store_create_task : pyval -> pyval -> pyval -> pyval -> string -> S -> task * S;
  store_list_tasks : pyval -> S -> list task * S;
  store_update_task :
    pyval -> pyval -> pyval -> pyval -> pyval -> pyval -> string -> S -> option task * S;
  store_delete_task : pyval -> S -> bool * S;
  store_get_statistics : S -> stats * S
}.

(** The store of [tools/task_tools.py]. *)
#[export] Instance in_memory : TaskStore tasks_db := {
  store_create_task ti de pr du now db := create_task ti de pr du now db;
  store_list_tasks st db := (list_tasks st db, db);
  store_update_task i ti de pr st du now db := update_task i ti de pr st du now db;
  store_delete_task i db := delete_task i db;
  store_get_statistics db := (get_statistics db, db)
}.

(** Any store with a counter of the calls made to it. *)
Definition counted {S : Type} (store : TaskStore S) : TaskStore (S * nat) := {|
  store_create_task ti de pr du now sn :=
    let (r, s') := store_create_task ti de pr du now (fst sn) in (r, (s', Datatypes.S (snd sn)));
  store_list_tasks st sn :=
    let (r, s') := store_list_tasks st (fst sn) in (r, (s', Datatypes.S (snd sn)));
  store_update_task i ti de pr st du now sn :=
    let (r, s') := store_update_task i ti de pr st du now (fst sn) in
    (r, (s', Datatypes.S (snd sn)));
  store_delete_task i sn :=
    let (r, s') := store_delete_task i (fst sn) in (r, (s', Datatypes.S (snd sn)));
  store_get_statistics sn :=
    let (r, s') := store_get_statistics (fst sn) in (r, (s', Datatypes.S (snd sn)))
|}.

(** *** Results of the dispatcher

    The strings the dispatcher builds with f-strings are kept as the
    template used and the values interpolated; fixed strings are [Text]. *)
Inductive reply : Type :=
| Text (s : string)
| TaskCreated (t : task)
| TasksFound (ts : list task)
| TaskUpdated (task_id : pyval) (t : task)
| TaskNotFound (task_id : pyval)
| TaskDeleted (task_id : pyval)
| Statistics (st : stats).

(** Prompts handed to the text-generation model. *)
Inductive prompt : Type :=
| ExtractionPrompt (user_request : string)
| ResponsePrompt (result : reply) (user_request : string).

(** *** A computation that may raise and that threads the store *)

Definition action_m (S A : Type) : Type := S -> (exn + A) * S.

Definition ret {S A : Type} (a : A) : action_m S A := fun s => (inr a, s).

Definition raise {S A : Type} (e : exn) : action_m S A := fun s => (inl e, s).

Definition bind {S A B : Type} (c : action_m S A) (k : A -> action_m S B)
  : action_m S B :=
  fun s => match c s with
           | (inr a, s') => k a s'
           | (inl e, s') => (inl e, s')
           end.

(** A pure step that may raise. *)
Definition pure {S A : Type} (r : exn + A) : action_m S A := fun s => (r, s).

(** A call of a store operation. *)
Definition call {S A : Type} (f : S -> A * S) : action_m S A :=
  fun s => let (a, s') := f s in (inr a, s').

(** [try: c  except Exception as e: handler(e)] *)
Definition try_except {S A : Type} (c : action_m S A) (handler : exn -> A)
  : S -> A * S :=
  fun s => match c s with
           | (inr a, s') => (a, s')
           | (inl e, s') => (handler e, s')
           end.

Declare Scope action_scope.
Delimit Scope action_scope with action.
Notation "x <- c ;; k" := (bind c (fun x => k))
  (at level 61, c at next level, right associativity) : action_scope.

(** The same for a step without store: [exn + A]. *)
Definition bind_exn {A B : Type} (r : exn + A) (k : A -> exn + B) : exn + B :=
  match r with
  | inr a => k a
  | inl e => inl e
  end.

Declare Scope exn_scope.
Delimit Scope exn_scope with exn.
Notation "x <- c ;; k" := (bind_exn c (fun x => k))
  (at level 61, c at next level, right associativity) : exn_scope.

Definition fence_json : string := "```json".
Definition fence : string := "```".

(** "Remove markdown code blocks if present": the [if]/[elif] of
    [_extract_task_info] on the stripped response text. *)
Definition unfence (response_text : string) : exn + string :=
  (if str_in fence_json response_text then
     after <- index (split fence_json response_text) 1 ;;
     inside <- index (split fence after) 0 ;;
     inr (strip inside)
   else if str_in fence response_text then
     after <- index (split fence response_text) 1 ;;
     inside <- index (split fence after) 0 ;;
     inr (strip inside)
   else inr response_text)%exn.

Section Agent.

(** [self.model.generate_content(prompt).text]: the generated text, or the
    exception the call or the access to [.text] raised. *)
Variable generate_content : prompt -> exn + string.

(** [json.loads] *)
Variable json_loads : string -> exn + pyval.

(** *** Parameter extraction *)

(** The body of the [try] block of [_extract_task_info]. *)
Definition _extract_task_info_try (user_request : string) : exn + pyval :=
  (text <- generate_content (ExtractionPrompt user_request) ;;
   let response_text := strip text in
   response_text <- unfence response_text ;;
   json_loads response_text)%exn.

Definition _extract_task_info (user_request : string) : pyval :=
  match _extract_task_info_try user_request with
  | inr params => params
  | inl e => PDict []
  end.

(** *** Dispatch *)

Context {S : Type} {store : TaskStore S}.

Definition general_help : string :=
  "I understand your request, but I'm not sure how to handle it. Please try:"
  ++ nl ++ "- Creating a task"
  ++ nl ++ "- Listing tasks"
  ++ nl ++ "- Updating a task"
  ++ nl ++ "- Getting statistics".

(** The body of the [try] block of [_execute_action]. *)
Definition _execute_action_try (action : string) (params : pyval) (now : string)
  : action_m S reply :=
  (if (action =? "create")%string then
     title <- pure (get params "title" (PStr "Untitled Task")) ;;
     description <- pure (get params "description" (PStr "")) ;;
     priority <- pure (get params "priority" (PStr "medium")) ;;
     due_date <- pure (get params "due_date" PNone) ;;
     task <- call (store_create_task title description priority due_date now) ;;
     ret (TaskCreated task)
   else if (action =? "list")%string then
     status <- pure (get params "status" PNone) ;;
     tasks <- call (store_list_tasks status) ;;
     match tasks with
     | [] => ret (Text "No tasks found.")
     | _ :: _ => ret (TasksFound tasks)
     end
   else if (action =? "update")%string then
     task_id <- pure (get params "task_id" PNone) ;;
     if negb (truthy task_id) then
       ret (Text "Error: Task ID is required for updates.")
     else
       status <- pure (get params "status" PNone) ;;
       priority <- pure (get params "priority" PNone) ;;
       title <- pure (get params "title" PNone) ;;
       description <- pure (get params "description" PNone) ;;
       task <- call (store_update_task task_id title description priority status
                                       PNone now) ;;
       match task with
       | Some t => ret (TaskUpdated task_id t)
       | None => ret (TaskNotFound task_id)
       end
   else if (action =? "delete")%string then
     task_id <- pure (get params "task_id" PNone) ;;
     if negb (truthy task_id) then
       ret (Text "Error: Task ID is required for deletion.")
     else
       deleted <- call (store_delete_task task_id) ;;
       if (deleted : bool) then ret (TaskDeleted task_id)
       else ret (TaskNotFound task_id)
   else if (action =? "statistics")%string then
     st <- call store_get_statistics ;;
     ret (Statistics st)
   else
     ret (Text general_help))%action.

Definition _execute_action (action : string) (params : pyval) (now : string)
  : S -> reply * S :=
  try_except (_execute_action_try action params now)
             (fun e => Text ("Error executing action: " ++ str_exn e)).

(** *** The request pipeline *)

Definition needs_params (action : string) : bool :=
  existsb (String.eqb action) ["create"; "update"; "delete"].

Definition process_request (user_request : string) (now : string) (s : S)
  : string * S :=
  let parsed := _parse_user_request user_request in
  let action := action parsed in
  let params :=
    if needs_params action then _extract_task_info user_request else PDict [] in
  let (result, s') := _execute_action action params now s in
  match generate_content (ResponsePrompt result user_request) with
  | inr final_result => (final_result, s')
  | inl e => ("I encountered an error: " ++ str_exn e, s')
  end.

End Agent.

End GoogleADKAgent.

Import GoogleADKAgent.

(* ================================================================== *)
(** ** Predicates and sample runs used in the statements *)
(* ================================================================== *)

(** [v] is one of the three documented statuses. *)
Definition is_status (v : pyval) : bool :=
  py_eq v (PStr "pending") || py_eq v (PStr "in_progress")
  || py_eq v (PStr "completed").

(** [v] is one of the three documented priorities. *)
Definition is_priority (v : pyval) : bool :=
  py_eq v (PStr "low") || py_eq v (PStr "medium") || py_eq v (PStr "high").

(** An operation whose status and priority arguments are absent (falsy, for
    an update) or taken from the documented enumerations. *)
Definition enumerated_op (o : op) : bool :=
  match o with
  | Create _ _ pr _ _ => is_priority pr
  | Update _ _ _ pr st _ _ =>
      (negb (truthy pr) || is_priority pr) && (negb (truthy st) || is_status st)
  | Delete _ => true
  end.

Definition enumerated_task (t : task) : bool :=
  is_status (status t) && is_priority (priority t).

Definition is_delete (o : op) : bool :=
  match o with
  | Delete _ => true
  | _ => false
  end.

Definition is_create (o : op) : bool :=
  match o with
  | Create _ _ _ _ _ => true
  | _ => false
  end.

(** The two sums the statistics record is expected to satisfy. *)
Definition sums_to_total (st : stats) : Prop :=
  pending st + in_progress st + completed st = total st /\
  low_priority st + medium_priority st + high_priority st = total st.

(** [create_task(title)] with the default arguments, at time [now]. *)
Definition create_default (title now : string) : op :=
  Create (PStr title) (PStr "") (PStr "medium") PNone now.

(** [update_task(task_id, status=status)], at time [now]. *)
Definition update_status (task_id : Z) (st now : string) : op :=
  Update (PInt task_id) PNone PNone PNone (PStr st) PNone now.

(** Two creations, the deletion of the first task, a third creation. *)
Definition create_delete_create : list op :=
  [ create_default "a" "09:00"; create_default "b" "09:01";
    Delete (PInt 1); create_default "c" "09:02" ].

(** A text-generation model that is down, and a JSON parser that is never
    reached or rejects its input. *)
Definition model_down : prompt -> exn + string :=
  fun _ => inl (Exception "503 service unavailable").

Definition model_chatty : prompt -> exn + string :=
  fun _ => inr "Sure, I can help with that!".

Definition json_rejects : string -> exn + pyval :=
  fun _ => inl (JSONDecodeError "Expecting value: line 1 column 1 (char 0)").

(** The task the dispatcher creates from an empty parameter record. *)
Definition placeholder_task (db : tasks_db) (now : string) : task :=
  {| id := len db + 1;
     title := PStr "Untitled Task";
     description := PStr "";
     priority := PStr "medium";
     due_date := PNone;
     status := PStr "pending";
     created_at := now;
     completed_at := PNone |}.

(** Extraction fails: the model call raises, or it returns a text and
    [json.loads] raises on what the extractor makes of it. *)
Definition extraction_fails (generate_content : prompt -> exn + string)
    (json_loads : string -> exn + pyval) (user_request : string) : Prop :=
  (exists e, generate_content (ExtractionPrompt user_request) = inl e) \/
  (exists text,
     generate_content (ExtractionPrompt user_request) = inr text /\
     forall cleaned, unfence (strip text) = inr cleaned ->
                     exists e, json_loads cleaned = inl e).

(* ================================================================== *)
(** ** The tool functions of agents/crewai_agent.py *)
(* ================================================================== *)

Module CrewAITools.

(** What a tool function returns: the f-string used and the values
    interpolated, or a fixed text. *)
Inductive tool_reply : Type :=
| ToolText (s : string)
| ToolCreated (t : task)
| ToolFound (ts : list task)
| ToolUpdated (task_id : Z) (t : task)
| ToolNotFound (task_id : Z)
| ToolInvalidInput (msg : string)
| ToolStatistics (st : stats).

(** [create_task_tool(title, description, priority, due_date)] *)
Definition create_task_tool (title description priority due_date : pyval)
    (now : string) (db : tasks_db) : tool_reply * tasks_db :=
  let (result, db') := create_task title description priority due_date now db in
  (ToolCreated result, db').

(** [list_tasks_tool(status)] *)
Definition list_tasks_tool (status : string) (db : tasks_db) : tool_reply :=
  let status_filter :=
    if truthy (PStr (strip status)) then PStr (strip status) else PNone in
  let tasks := list_tasks status_filter db in
  match tasks with
  | [] => ToolText "No tasks found."
  | _ :: _ => ToolFound tasks
  end.

(** [parts[i] if len(parts) > i and parts[i] else None] *)
Definition optional_part (parts : list string) (i : nat) : pyval :=
  match nth_error parts i with
  | Some p => if truthy (PStr p) then PStr p else PNone
  | None => PNone
  end.

Section UpdateTool.

(** The built-in [int] on a string: the integer, or the message of the
    [ValueError] it raises. *)
Variable py_int : string -> string + Z.

(** [update_task_tool(task_input)] *)
Definition update_task_tool (task_input : string) (now : string) (db : tasks_db)
  : tool_reply * tasks_db :=
  let parts := map strip (split "," task_input) in
  match parts with
  | [] => (ToolInvalidInput "list index out of range", db)
  | first :: _ =>
      match py_int first with
      | inl msg => (ToolInvalidInput msg, db)
      | inr task_id =>
          let status := optional_part parts 1 in
          let priority := optional_part parts 2 in
          match update_task (PInt task_id) PNone PNone priority status PNone now db with
          | (Some t, db') => (ToolUpdated task_id t, db')
          | (None, db') => (ToolNotFound task_id, db')
          end
      end
  end.

End UpdateTool.

(** [get_task_statistics_tool()] *)
Definition get_task_statistics_tool (db : tasks_db) : tool_reply :=
  ToolStatistics (get_statistics db).

(** [int] on ASCII decimal literals: optional sign, digits, single
    underscores between digits; surrounding whitespace is ignored. *)
Definition digit_of (c : ascii) : option Z :=
  let n := nat_of_ascii c in
  if ((48 <=? n) && (n <=? 57))%nat then Some (Z.of_nat (n - 48)) else None.

Fixpoint digits_value (acc : Z) (after_digit : bool) (s : string) : option Z :=
  match s with
  | EmptyString => if after_digit then Some acc else None
  | String c s' =>
      match digit_of c with
      | Some d => digits_value (10 * acc + d) true s'
      | None =>
          if (Ascii.eqb c "_" && after_digit)%bool
          then digits_value acc false s'
          else None
      end
  end.

Definition int_ascii (s : string) : string + Z :=
  let body := strip s in
  let value :=
    match body with
    | String "+" digits => digits_value 0 false digits
    | String "-" digits => option_map Z.opp (digits_value 0 false digits)
    | _ => digits_value 0 false body
    end in
  match value with
  | Some z => inr z
  | None => inl ("invalid literal for int() with base 10: '" ++ s ++ "'")
  end.

End CrewAITools.

(* ================================================================== *)
(** ** Start-up checks: main.py and GoogleADKAgent.__init__ *)
(* ================================================================== *)

Module Startup.

(** The process environment: [os.getenv(var)] is [None] for an unset
    variable. *)
Definition environ : Type := string -> option string.

Definition getenv (env : environ) (var : string) : pyval :=
  match env var with
  | Some v => PStr v
  | None => PNone
  end.

Definition required_vars : list (string * string) :=
  [ ("GEMINI_API_KEY", "Google Gemini API key");
    ("LANGFUSE_PUBLIC_KEY", "Langfuse public key");
    ("LANGFUSE_SECRET_KEY", "Langfuse secret key") ].

Definition optional_vars : list (string * string) :=
  [ ("OPENAI_API_KEY", "OpenAI API key (for CrewAI)") ].

(** The loop [for var, description in vars.items(): if not os.getenv(var):
    out.append(f"{var} ({description})")]. *)
Definition unset_vars (env : environ) (vars : list (string * string)) : list string :=
  map (fun vd => fst vd ++ " (" ++ snd vd ++ ")")
      (filter (fun vd => negb (truthy (getenv env (fst vd)))) vars).

(** [check_environment()] of main.py; what it prints is left out. *)
Definition check_environment (env : environ) : bool :=
  let missing := unset_vars env required_vars in
  let warnings := unset_vars env optional_vars in
  match missing with
  | _ :: _ => false
  | [] => true
  end.

(** [a or b] *)
Definition py_or (a b : pyval) : pyval := if truthy a then a else b.

Inductive init_error : Type :=
| ValueError (msg : string).

(** The first lines of [GoogleADKAgent.__init__]: the key handed to
    [genai.configure], or the [ValueError] raised. *)
Definition init_api_key (env : environ) : init_error + pyval :=
  let api_key := py_or (getenv env "GEMINI_API_KEY") (getenv env "GOOGLE_API_KEY") in
  if negb (truthy api_key)
  then inl (ValueError "GEMINI_API_KEY or GOOGLE_API_KEY must be set in .env file")
  else inr api_key.

End Startup.

(* ================================================================== *)
(** ** Further predicates used in the statements *)
(* ================================================================== *)

(** Number of [Create] operations in a run. *)
Definition creations (ops : list op) : Z :=
  Z.of_nat (List.length (filter is_create ops)).

(** No backtick in the text. *)
Fixpoint no_backtick (s : string) : bool :=
  match s with
  | EmptyString => true
  | String c s' => negb (Ascii.eqb c "`") && no_backtick s'
  end.

(** The five tags with a branch of their own in the dispatcher. *)
Definition dispatched_actions : list string :=
  ["create"; "list"; "update"; "delete"; "statistics"].

(** An id a caller may pass that is a number for [==]: an integer or a
    boolean. *)
Definition numeric (v : pyval) : bool :=
  match v with
  | PInt _ | PBool _ => true
  | _ => false
  end.

(** What a run from a store keeps: no more tasks than creations, and ids
    between 1 and the number of creations. *)
Definition within (n : Z) (db : tasks_db) : Prop :=
  len db <= n /\ Forall (fun t => 1 <= id t <= n) db.

(** A model that wraps its answer in a json code fence, and a parser that
    knows the empty list only. *)
Definition model_fenced : prompt -> exn + string :=
  fun _ => inr (" ```json" ++ nl ++ "[]" ++ nl ++ "``` ").

Definition json_empty_list_only : string -> exn + pyval :=
  fun s => if (s =? "[]")%string then inr (PList [])
           else inl (JSONDecodeError "Expecting value: line 1 column 1 (char 0)").

(** An environment given by its bindings. *)
Definition environ_of (bindings : list (string * string)) : Startup.environ :=
  fun var =>
    match find (fun kv => (fst kv =? var)%string) bindings with
    | Some kv => Some (snd kv)
    | None => None
    end.

(* ================================================================== *)
(** ** Facts about Python values *)
(* ================================================================== *)

Lemma py_eq_int_int (i j : Z) : py_eq (PInt i) (PInt j) = (i =? j).
Proof. reflexivity. Qed.

Lemma py_eq_str_r (v : pyval) (s : string) :
  py_eq v (PStr s) = true <-> v = PStr s.
Proof.
  destruct v; simpl; split; intro H; try discriminate.
  - apply String.eqb_eq in H. now subst.
  - injection H as ->. apply String.eqb_refl.
Qed.

Lemma truthy_PStr_nonempty (s : string) :
  s <> "" -> truthy (PStr s) = true.
Proof.
  intro H. simpl. destruct (String.eqb_spec s ""); [contradiction | reflexivity].
Qed.

Lemma get_dict_missing kvs key default :
  assoc key kvs = None -> get (PDict kvs) key default = inr default.
Proof. intro H. unfold get. now rewrite H. Qed.

Lemma get_empty key default : get (PDict []) key default = inr default.
Proof. reflexivity. Qed.

(* ================================================================== *)
(** ** Facts about the task store *)
(* ================================================================== *)

Section StoreFacts.

Implicit Types (db : tasks_db) (t : task) (p : task -> bool).

Lemma len_cons t db : len (t :: db) = 1 + len db.
Proof. unfold len. simpl List.length. lia. Qed.

Lemma len_app_one db t : len (db ++ [t])%list = len db + 1.
Proof. unfold len. rewrite length_app. simpl. lia. Qed.

Lemma len_filter_cons p t db :
  len (filter p (t :: db)) = (if p t then 1 else 0) + len (filter p db).
Proof. simpl. destruct (p t); [apply len_cons | reflexivity]. Qed.

Lemma len_filter_le p db : len (filter p db) <= len db.
Proof.
  induction db as [|t db IH]; [reflexivity|].
  rewrite len_filter_cons, len_cons. destruct (p t); lia.
Qed.

(** *** Lookup and in-place update *)

Lemma find_split p db t :
  find p db = Some t ->
  exists l1 l2,
    db = (l1 ++ t :: l2)%list /\ p t = true /\ forallb (fun x => negb (p x)) l1 = true.
Proof.
  induction db as [|x db IH]; simpl; [discriminate|].
  destruct (p x) eqn:Hx.
  - intros [= ->]. exists [], db. now repeat split.
  - intros H. destruct (IH H) as (l1 & l2 & -> & Ht & Hl1).
    exists (x :: l1), l2. simpl. rewrite Hx. now repeat split.
Qed.

Lemma find_none_filter p db :
  find p db = None -> filter (fun x => negb (p x)) db = db.
Proof.
  induction db as [|x db IH]; simpl; [reflexivity|].
  destruct (p x); [discriminate|]. intros H. simpl. now rewrite IH.
Qed.

Lemma forallb_negb_filter p l :
  forallb (fun x => negb (p x)) l = true -> filter (fun x => negb (p x)) l = l.
Proof.
  induction l as [|x l IH]; simpl; [reflexivity|].
  destruct (p x); simpl; [discriminate|]. intros H. now rewrite IH.
Qed.

Lemma mutate_first_length p (f : task -> task) db :
  List.length (mutate_first p f db) = List.length db.
Proof.
  induction db as [|x db IH]; simpl; [reflexivity|].
  destruct (p x); simpl; now rewrite ?IH.
Qed.

Lemma find_mutate_first p (f : task -> task) db t :
  (forall x, p (f x) = p x) ->
  find p db = Some t ->
  find p (mutate_first p f db) = Some (f t).
Proof.
  intros Hf. induction db as [|x db IH]; simpl; [discriminate|].
  destruct (p x) eqn:Hx.
  - intros [= ->]. simpl. now rewrite Hf, Hx.
  - intros H. simpl. rewrite Hx. now apply IH.
Qed.

Lemma map_mutate_first {A : Type} (g : task -> A) p (f : task -> task) db :
  (forall x, g (f x) = g x) -> map g (mutate_first p f db) = map g db.
Proof.
  intros Hg. induction db as [|x db IH]; simpl; [reflexivity|].
  destruct (p x); simpl; now rewrite ?Hg, ?IH.
Qed.

Lemma forallb_mutate_first (q : task -> bool) p (f : task -> task) db :
  (forall x, q x = true -> q (f x) = true) ->
  forallb q db = true -> forallb q (mutate_first p f db) = true.
Proof.
  intros Hq. induction db as [|x db IH]; simpl; [reflexivity|].
  intros [Hx Hdb]%andb_prop.
  destruct (p x); simpl; apply andb_true_intro; auto.
Qed.

(** *** What [update_task] assigns *)

Section ApplyUpdates.

Variables (t : task) (ti de pr st du : pyval) (now : string).

Ltac by_cases :=
  unfold apply_updates;
  destruct (truthy ti), (truthy de), (truthy pr), (truthy st),
    (py_eq st (PStr "completed")), (truthy du); reflexivity.

Lemma apply_updates_id : id (apply_updates t ti de pr st du now) = id t.
Proof. by_cases. Qed.

Lemma apply_updates_created_at :
  created_at (apply_updates t ti de pr st du now) = created_at t.
Proof. by_cases. Qed.

Lemma apply_updates_title :
  title (apply_updates t ti de pr st du now) = if truthy ti then ti else title t.
Proof. by_cases. Qed.

Lemma apply_updates_description :
  description (apply_updates t ti de pr st du now)
  = if truthy de then de else description t.
Proof. by_cases. Qed.

Lemma apply_updates_priority :
  priority (apply_updates t ti de pr st du now)
  = if truthy pr then pr else priority t.
Proof. by_cases. Qed.

Lemma apply_updates_status :
  status (apply_updates t ti de pr st du now) = if truthy st then st else status t.
Proof. by_cases. Qed.

Lemma apply_updates_due_date :
  due_date (apply_updates t ti de pr st du now)
  = if truthy du then du else due_date t.
Proof. by_cases. Qed.

Lemma apply_updates_completed_at :
  completed_at (apply_updates t ti de pr st du now) =
  if truthy st && py_eq st (PStr "completed") then PStr now else completed_at t.
Proof. by_cases. Qed.

End ApplyUpdates.

Lemma has_id_apply_updates i t ti de pr st du now :
  has_id i (apply_updates t ti de pr st du now) = has_id i t.
Proof. unfold has_id. now rewrite apply_updates_id. Qed.

(** [update_task] on an id that is present returns the task it changed, and
    a later lookup of the id finds that task. *)
Lemma update_task_found db i t ti de pr st du now :
  get_task i db = Some t ->
  let r := update_task i ti de pr st du now db in
  fst r = Some (apply_updates t ti de pr st du now) /\
  get_task i (snd r) = Some (apply_updates t ti de pr st du now).
Proof.
  unfold get_task, update_task. intros H. rewrite H. simpl. split; [reflexivity|].
  apply (find_mutate_first (has_id i)
           (fun x => apply_updates x ti de pr st du now)); [|exact H].
  intros x. apply has_id_apply_updates.
Qed.

Lemma update_task_not_found db i ti de pr st du now :
  get_task i db = None -> update_task i ti de pr st du now db = (None, db).
Proof. unfold get_task, update_task. now intros ->. Qed.

Lemma update_task_length db i ti de pr st du now :
  len (snd (update_task i ti de pr st du now db)) = len db.
Proof.
  unfold update_task, len. destruct (find _ db); simpl; [|reflexivity].
  now rewrite mutate_first_length.
Qed.

Lemma update_task_ids db i ti de pr st du now :
  ids (snd (update_task i ti de pr st du now db)) = ids db.
Proof.
  unfold update_task, ids. destruct (find _ db); simpl; [|reflexivity].
  apply map_mutate_first. intros x. apply apply_updates_id.
Qed.

(** *** Creation *)

(** The id of a new task is the current length of the list plus one. *)
Lemma create_task_id ti de pr du now db :
  id (fst (create_task ti de pr du now db)) = len db + 1.
Proof. reflexivity. Qed.

Lemma create_task_appends ti de pr du now db :
  snd (create_task ti de pr du now db)
  = (db ++ [fst (create_task ti de pr du now db)])%list.
Proof. reflexivity. Qed.

(** *** Deletion *)

Lemma has_id_same_id i t x :
  has_id i t = true -> has_id i x = true -> id t = id x.
Proof.
  unfold has_id. destruct i; simpl; try discriminate; lia.
Qed.

(** Deleting an id that no task carries changes nothing and returns false. *)
Lemma delete_task_absent db i :
  get_task i db = None -> delete_task i db = (false, db).
Proof.
  unfold get_task, delete_task. intros H.
  rewrite (find_none_filter _ _ H). now rewrite Z.ltb_irrefl.
Qed.

(** When the ids of the store are pairwise distinct, deleting an id that is
    present removes that task only and keeps the others in order. *)
Lemma delete_task_present_distinct db i t :
  NoDup (ids db) ->
  get_task i db = Some t ->
  exists l1 l2,
    db = (l1 ++ t :: l2)%list /\ delete_task i db = (true, (l1 ++ l2)%list).
Proof.
  unfold get_task. intros Hnd Hfind.
  destruct (find_split _ _ _ Hfind) as (l1 & l2 & -> & Ht & Hl1).
  exists l1, l2. split; [reflexivity|].
  assert (Hl2 : forallb (fun x => negb (has_id i x)) l2 = true).
  { apply forallb_forall. intros x Hx.
    destruct (has_id i x) eqn:Hix; [|reflexivity]. exfalso.
    unfold ids in Hnd. rewrite map_app in Hnd. simpl in Hnd.
    apply NoDup_remove_2 in Hnd. apply Hnd. apply in_or_app. right.
    rewrite (has_id_same_id _ _ _ Ht Hix). now apply in_map. }
  unfold delete_task. rewrite filter_app. simpl. rewrite Ht. simpl.
  rewrite !forallb_negb_filter by assumption.
  assert (Hlt : (len (l1 ++ l2)%list <? len (l1 ++ t :: l2)%list) = true).
  { apply Z.ltb_lt. unfold len. rewrite !length_app. simpl. lia. }
  now rewrite Hlt.
Qed.

(** *** Runs *)

Lemma run_cons o ops db : run (o :: ops) db = run ops (step db o).
Proof. reflexivity. Qed.

Lemma run_app ops1 ops2 db : run (ops1 ++ ops2)%list db = run ops2 (run ops1 db).
Proof. unfold run. apply fold_left_app. Qed.

(** In a run without deletions the ids handed out are [len db + 1],
    [len db + 2], ...: it is a deletion that makes the next id collide. *)
Lemma assigned_ids_without_delete ops db :
  forallb (fun o => negb (is_delete o)) ops = true ->
  assigned_ids ops db
  = map (fun k => len db + Z.of_nat k)
        (seq 1 (List.length (filter is_create ops))).
Proof.
  revert db. induction ops as [|o ops IH]; intros db; simpl; [reflexivity|].
  intros [Ho Hops]%andb_prop. destruct o; simpl in Ho; try discriminate.
  - cbn [is_create List.length seq map]. f_equal.
    rewrite IH by assumption.
    rewrite <- (seq_shift _ 1), map_map.
    apply map_ext. intros k. unfold step.
    rewrite create_task_appends, len_app_one. lia.
  - cbn [is_create]. rewrite IH by assumption.
    unfold step. now rewrite update_task_length.
Qed.

Lemma ids_run_without_delete ops db :
  forallb (fun o => negb (is_delete o)) ops = true ->
  ids (run ops db) = (ids db ++ assigned_ids ops db)%list.
Proof.
  revert db. induction ops as [|o ops IH]; intros db Hops.
  - simpl. now rewrite app_nil_r.
  - simpl in Hops. apply andb_prop in Hops as [Ho Hops].
    rewrite run_cons, IH by assumption.
    destruct o; simpl in Ho; try discriminate; simpl assigned_ids.
    + unfold step at 1. rewrite create_task_appends. unfold ids at 1.
      rewrite map_app, <- app_assoc. reflexivity.
    + unfold step at 1. now rewrite update_task_ids.
Qed.

(** Without deletions the ids in the store stay pairwise distinct. *)
Lemma ids_distinct_without_delete ops :
  forallb (fun o => negb (is_delete o)) ops = true ->
  NoDup (ids (run ops empty_db)).
Proof.
  intros H. rewrite ids_run_without_delete by assumption.
  rewrite assigned_ids_without_delete by assumption. simpl.
  apply Injective_map_NoDup; [|apply seq_NoDup].
  intros x y Hxy. unfold len in Hxy. simpl in Hxy. lia.
Qed.

(** *** Statistics *)

Lemma three_way_count (p1 p2 p3 : task -> bool) db :
  forallb (fun t => (Z.b2z (p1 t) + Z.b2z (p2 t) + Z.b2z (p3 t) =? 1)) db = true ->
  len (filter p1 db) + len (filter p2 db) + len (filter p3 db) = len db.
Proof.
  induction db as [|t db IH]; [reflexivity|].
  simpl forallb. intros [Ht Hdb]%andb_prop. apply Z.eqb_eq in Ht.
  rewrite !len_filter_cons, len_cons. specialize (IH Hdb).
  destruct (p1 t), (p2 t), (p3 t); simpl in Ht; lia.
Qed.

Lemma is_status_one_of v :
  is_status v = true ->
  Z.b2z (py_eq v (PStr "pending")) + Z.b2z (py_eq v (PStr "in_progress"))
  + Z.b2z (py_eq v (PStr "completed")) = 1.
Proof.
  unfold is_status. intros H.
  apply orb_prop in H as [H | H]; [apply orb_prop in H as [H | H]|];
    apply py_eq_str_r in H; subst v; reflexivity.
Qed.

Lemma is_priority_one_of v :
  is_priority v = true ->
  Z.b2z (py_eq v (PStr "low")) + Z.b2z (py_eq v (PStr "medium"))
  + Z.b2z (py_eq v (PStr "high")) = 1.
Proof.
  unfold is_priority. intros H.
  apply orb_prop in H as [H | H]; [apply orb_prop in H as [H | H]|];
    apply py_eq_str_r in H; subst v; reflexivity.
Qed.

(** When every task carries a documented status and priority, the counts of
    the statistics record add up. *)
Lemma get_statistics_sums db :
  forallb enumerated_task db = true -> sums_to_total (get_statistics db).
Proof.
  intros H. unfold sums_to_total, get_statistics. simpl. split.
  - apply three_way_count. apply forallb_forall. intros t Ht.
    apply Z.eqb_eq, is_status_one_of.
    rewrite forallb_forall in H. specialize (H t Ht).
    now apply andb_prop in H as [? _].
  - apply three_way_count. apply forallb_forall. intros t Ht.
    apply Z.eqb_eq, is_priority_one_of.
    rewrite forallb_forall in H. specialize (H t Ht).
    now apply andb_prop in H as [_ ?].
Qed.

Lemma enumerated_apply_updates t ti de pr st du now :
  (negb (truthy pr) || is_priority pr) && (negb (truthy st) || is_status st) = true ->
  enumerated_task t = true ->
  enumerated_task (apply_updates t ti de pr st du now) = true.
Proof.
  unfold enumerated_task. intros [Hpr Hst]%andb_prop [Hs Hp]%andb_prop.
  rewrite apply_updates_status, apply_updates_priority.
  destruct (truthy st), (truthy pr); simpl in *; now rewrite ?Hs, ?Hp, ?Hpr, ?Hst.
Qed.

Lemma step_enumerated db o :
  enumerated_op o = true ->
  forallb enumerated_task db = true ->
  forallb enumerated_task (step db o) = true.
Proof.
  intros Ho Hdb. destruct o as [ti de pr du now | i ti de pr st du now | i]; simpl in *.
  - rewrite forallb_app, Hdb. simpl. unfold enumerated_task. simpl.
    now rewrite Ho.
  - unfold update_task. destruct (find _ db); simpl; [|assumption].
    apply forallb_mutate_first; [|assumption].
    intros x. now apply enumerated_apply_updates.
  - unfold delete_task. destruct (_ <? _); simpl;
      rewrite forallb_forall in *; intros x [Hx _]%filter_In; auto.
Qed.

Lemma run_enumerated ops db :
  forallb enumerated_op ops = true ->
  forallb enumerated_task db = true ->
  forallb enumerated_task (run ops db) = true.
Proof.
  revert db. induction ops as [|o ops IH]; intros db Hops Hdb.
  - exact Hdb.
  - simpl in Hops. apply andb_prop in Hops as [Ho Hops].
    rewrite run_cons. apply IH; [assumption|]. now apply step_enumerated.
Qed.

End StoreFacts.

(* ================================================================== *)
(** ** Properties of the task store *)
(* ================================================================== *)

(** C1 (defect in [create_task]).  The specification wants the ids handed
    out by successive creations to be strictly increasing, never reused, and
    equal to the number of tasks ever created plus one.  [create_task]
    computes [len(tasks_db) + 1] from the current list: after two creations
    and the deletion of task 1 the third creation is handed id 2 again, not
    3, so the sequence of assigned ids is neither strictly increasing nor
    free of repetitions. *)
Theorem create_task_reuses_id_after_delete :
  assigned_ids create_delete_create empty_db = [1; 2; 2] /\
  ~ NoDup (assigned_ids create_delete_create empty_db).
Proof.
  split; [reflexivity|].
  change (assigned_ids create_delete_create empty_db) with [1; 2; 2].
  intros H. inversion H as [|x l _ H2]; subst.
  inversion H2 as [|x l Hin _]; subst. apply Hin. now left.
Qed.

(** C2 (same defect of [create_task]).  The specification wants the ids of the tasks in
    the store to be pairwise distinct in every reachable state.  After two
    creations, the deletion of task 1 and a third creation, the store holds
    two tasks with id 2. *)
Theorem reachable_store_with_duplicate_ids :
  ids (run create_delete_create empty_db) = [2; 2] /\
  ~ NoDup (ids (run create_delete_create empty_db)).
Proof.
  split; [reflexivity|].
  change (ids (run create_delete_create empty_db)) with [2; 2].
  intros H. inversion H as [|x l Hin _]; subst. apply Hin. now left.
Qed.

(** C3, as stated, fails: the store keeps any status it is given, and a
    task whose status is outside the three documented values is counted in
    [total] only. *)
Lemma statistics_unvalidated_status :
  ~ sums_to_total
      (get_statistics
         (run [create_default "a" "09:00"; update_status 1 "archived" "09:05"]
              empty_db)).
Proof.
  vm_compute. intros [H _]. discriminate H.
Qed.

(** C3 (amended).  In every state reached from the empty store by create,
    update and delete operations whose priority and status arguments are
    absent or among the documented values, the statistics record satisfies
    [pending + in_progress + completed = total] and
    [low_priority + medium_priority + high_priority = total]. *)
Theorem statistics_sums_enumerated (ops : list op) :
  forallb enumerated_op ops = true ->
  sums_to_total (get_statistics (run ops empty_db)).
Proof.
  intros H. apply get_statistics_sums. now apply run_enumerated.
Qed.

Lemma statistics_sums_enumerated_witness :
  let ops := [ create_default "a" "09:00";
               Create (PStr "b") (PStr "") (PStr "high") PNone "09:01";
               update_status 1 "completed" "09:05";
               Delete (PInt 2) ] in
  forallb enumerated_op ops = true /\
  sums_to_total (get_statistics (run ops empty_db)).
Proof.
  intros ops. split; [reflexivity|].
  apply (statistics_sums_enumerated ops). reflexivity.
Defined.

(** C4.  For an id present in the store, [update_task] leaves a field as it
    was when the argument given for it is falsy (None, the empty string, 0,
    False, an empty list or dictionary) and overwrites it with the argument
    otherwise; this holds for title, description, priority, status and
    due_date.  Hence a field holding a non-empty value never becomes empty
    through an update. *)
Theorem update_task_skips_falsy
    (db : tasks_db) (i : pyval) (t : task) (ti de pr st du : pyval) (now : string) :
  get_task i db = Some t ->
  exists t',
    fst (update_task i ti de pr st du now db) = Some t' /\
    get_task i (snd (update_task i ti de pr st du now db)) = Some t' /\
    title t' = (if truthy ti then ti else title t) /\
    description t' = (if truthy de then de else description t) /\
    priority t' = (if truthy pr then pr else priority t) /\
    status t' = (if truthy st then st else status t) /\
    due_date t' = (if truthy du then du else due_date t) /\
    (truthy (title t) = true -> truthy (title t') = true) /\
    (truthy (description t) = true -> truthy (description t') = true) /\
    (truthy (priority t) = true -> truthy (priority t') = true) /\
    (truthy (status t) = true -> truthy (status t') = true) /\
    (truthy (due_date t) = true -> truthy (due_date t') = true).
Proof.
  intros H.
  destruct (update_task_found db i t ti de pr st du now H) as [Hret Hget].
  exists (apply_updates t ti de pr st du now).
  rewrite apply_updates_title, apply_updates_description, apply_updates_priority,
    apply_updates_status, apply_updates_due_date.
  repeat split; try assumption.
  - destruct (truthy ti) eqn:E; auto.
  - destruct (truthy de) eqn:E; auto.
  - destruct (truthy pr) eqn:E; auto.
  - destruct (truthy st) eqn:E; auto.
  - destruct (truthy du) eqn:E; auto.
Qed.

Lemma update_task_skips_falsy_witness :
  let db := run [create_default "Write report" "09:00"] empty_db in
  exists t',
    get_task (PInt 1)
      (snd (update_task (PInt 1) (PStr "") PNone (PStr "high") PNone PNone "09:05" db))
    = Some t' /\
    title t' = PStr "Write report" /\ priority t' = PStr "high".
Proof.
  intros db.
  destruct (update_task_skips_falsy db (PInt 1)
              (fst (create_task (PStr "Write report") (PStr "") (PStr "medium")
                                PNone "09:00" empty_db))
              (PStr "") PNone (PStr "high") PNone PNone "09:05" eq_refl)
    as (t' & _ & Hget & Hti & _ & Hpr & _).
  exists t'. repeat split; assumption.
Defined.

(** C5.  For an id present in the store, [update_task(id,
    status="completed")] sets [completed_at] of the task to the timestamp of
    the call, which is not None; a following [update_task(id,
    status="pending")] changes the status and leaves [completed_at] as it
    was; and an update whose status argument is not "completed" changes the
    [completed_at] of no task. *)
Theorem update_task_completed_at
    (db : tasks_db) (i : pyval) (t : task) (now1 now2 : string) :
  get_task i db = Some t ->
  let db1 := snd (update_task i PNone PNone PNone (PStr "completed") PNone now1 db) in
  let db2 := snd (update_task i PNone PNone PNone (PStr "pending") PNone now2 db1) in
  (exists t1, get_task i db1 = Some t1 /\
     status t1 = PStr "completed" /\
     completed_at t1 = PStr now1 /\ completed_at t1 <> PNone) /\
  (exists t2, get_task i db2 = Some t2 /\
     status t2 = PStr "pending" /\ completed_at t2 = PStr now1) /\
  (forall db0 j ti de pr st du now,
     py_eq st (PStr "completed") = false ->
     map completed_at (snd (update_task j ti de pr st du now db0))
     = map completed_at db0).
Proof.
  intros H db1 db2.
  destruct (update_task_found db i t PNone PNone PNone (PStr "completed") PNone now1 H)
    as [_ H1]. fold db1 in H1.
  destruct (update_task_found db1 i _ PNone PNone PNone (PStr "pending") PNone now2 H1)
    as [_ H2]. fold db2 in H2.
  split; [|split].
  - eexists. split; [exact H1|]. repeat split. discriminate.
  - eexists. split; [exact H2|]. split; reflexivity.
  - intros db0 j ti de pr st du now Hst. unfold update_task.
    destruct (find _ db0); simpl; [|reflexivity].
    apply map_mutate_first. intros x.
    rewrite apply_updates_completed_at, Hst. now rewrite andb_false_r.
Qed.

Lemma update_task_completed_at_witness :
  let db := run [create_default "a" "09:00"] empty_db in
  let db1 := snd (update_task (PInt 1) PNone PNone PNone (PStr "completed") PNone
                              "10:00" db) in
  let db2 := snd (update_task (PInt 1) PNone PNone PNone (PStr "pending") PNone
                              "11:00" db1) in
  exists t2, get_task (PInt 1) db2 = Some t2 /\
    status t2 = PStr "pending" /\ completed_at t2 = PStr "10:00".
Proof.
  intros db db1 db2.
  exact (proj1 (proj2 (update_task_completed_at db (PInt 1)
           (fst (create_task (PStr "a") (PStr "") (PStr "medium") PNone "09:00"
                             empty_db))
           "10:00" "11:00" eq_refl))).
Defined.

(** C6 (consequence of the id defect of [create_task]).  The specification wants
    [delete_task] on an id present in the store to remove exactly one task.
    In the store reached by two creations, the deletion of task 1 and a
    third creation, tasks "b" and "c" both carry id 2, and [delete_task(2)]
    removes the two of them.  (On an absent id the operation returns false
    and changes nothing, [delete_task_absent]; with pairwise distinct ids it
    removes the one task, [delete_task_present_distinct].) *)
Theorem delete_task_removes_two_tasks :
  let db := run create_delete_create empty_db in
  map title db = [PStr "b"; PStr "c"] /\
  ids db = [2; 2] /\
  delete_task (PInt 2) db = (true, []).
Proof. repeat split. Qed.

(** C10.  For a task whose status is already "completed", a further
    [update_task(id, status="completed")] sets [completed_at] to the
    timestamp of this call: the field records the latest update that set the
    status to completed, and the earlier timestamp is lost. *)
Theorem update_task_completed_again
    (db : tasks_db) (i : pyval) (t : task) (earlier now : string)
    (ti de pr du : pyval) :
  get_task i db = Some t ->
  status t = PStr "completed" ->
  completed_at t = PStr earlier ->
  exists t',
    get_task i (snd (update_task i ti de pr (PStr "completed") du now db)) = Some t' /\
    status t' = PStr "completed" /\
    completed_at t' = PStr now /\
    (now <> earlier -> completed_at t' <> completed_at t).
Proof.
  intros H Hst Hca.
  destruct (update_task_found db i t ti de pr (PStr "completed") du now H) as [_ Hget].
  eexists. split; [exact Hget|].
  rewrite apply_updates_status, apply_updates_completed_at. simpl.
  repeat split. rewrite Hca. intros Hne [= Heq]. now apply Hne.
Qed.

Lemma update_task_completed_again_witness :
  let db := run [create_default "a" "09:00"; update_status 1 "completed" "10:00"]
                empty_db in
  exists t',
    get_task (PInt 1)
      (snd (update_task (PInt 1) PNone PNone PNone (PStr "completed") PNone "11:00" db))
    = Some t' /\
    completed_at t' = PStr "11:00".
Proof.
  intros db.
  destruct (update_task_completed_again db (PInt 1)
              {| id := 1; title := PStr "a"; description := PStr "";
                 priority := PStr "medium"; due_date := PNone;
                 status := PStr "completed"; created_at := "09:00";
                 completed_at := PStr "10:00" |}
              "10:00" "11:00" PNone PNone PNone PNone eq_refl eq_refl eq_refl)
    as (t' & Hget & _ & Hca & _).
  exists t'. split; assumption.
Defined.

(* ================================================================== *)
(** ** Facts about text *)
(* ================================================================== *)

Section TextFacts.

Implicit Types (s w : string).

Lemma prefix_spec w s : prefix w s = true <-> exists rest, s = w ++ rest.
Proof.
  revert s. induction w as [|a w IH]; intros s; simpl.
  - destruct s; split; intros _; try reflexivity; eexists; reflexivity.
  - destruct s as [|b s]; simpl.
    + split; [discriminate | intros [rest H]; discriminate H].
    + destruct (ascii_dec a b) as [->|Hab].
      * rewrite IH. split; intros [rest H]; exists rest.
        -- now rewrite H.
        -- now injection H.
      * split; [discriminate|]. intros [rest H]. injection H as H1 _.
        now elim Hab.
Qed.

Lemma str_in_unfold w s :
  str_in w s
  = prefix w s || match s with EmptyString => false | String _ s' => str_in w s' end.
Proof. destruct s; reflexivity. Qed.

Lemma occurs_here w s : prefix w s = true -> occurs w s.
Proof.
  intros [rest H]%prefix_spec. exists EmptyString, rest. exact H.
Qed.

Lemma occurs_later w c s : occurs w s -> occurs w (String c s).
Proof.
  intros (before & after & H). exists (String c before), after. simpl. now rewrite H.
Qed.

(** [word in s] decides the occurrence of [word] in [s]. *)
Lemma str_in_spec w s : str_in w s = true <-> occurs w s.
Proof.
  split.
  - induction s as [|c s IH]; rewrite str_in_unfold; intros H.
    + rewrite orb_false_r in H. now apply occurs_here.
    + apply orb_prop in H as [H | H]; [now apply occurs_here|].
      apply occurs_later. now apply IH.
  - intros (before & after & ->). induction before as [|c before IH].
    + rewrite str_in_unfold. simpl "++".
      assert (H : prefix w (w ++ after) = true) by (apply prefix_spec; now eexists).
      now rewrite H.
    + rewrite str_in_unfold. simpl "++". cbv iota beta. rewrite IH. apply orb_true_r.
Qed.

Lemma any_in_spec (words : list string) s :
  any_in words s = true <-> category_matches words s.
Proof.
  unfold any_in, category_matches. rewrite existsb_exists.
  split; intros (word & Hin & H); exists word; split; auto; now apply str_in_spec.
Qed.

Lemma any_in_false (words : list string) s :
  any_in words s = false <-> ~ category_matches words s.
Proof.
  rewrite <- any_in_spec. destruct (any_in words s); split; intros H; auto.
  - discriminate.
  - now elim H.
Qed.

Lemma lower_app s1 s2 : lower (s1 ++ s2) = lower s1 ++ lower s2.
Proof.
  induction s1 as [|c s1 IH]; simpl; [reflexivity|]. now rewrite IH.
Qed.

(** A word that [lower] leaves alone and that occurs in a text occurs in the
    lower-cased text too. *)
Lemma occurs_lower w s : lower w = w -> occurs w s -> occurs w (lower s).
Proof.
  intros Hw (before & after & ->). exists (lower before), (lower after).
  now rewrite !lower_app, Hw.
Qed.

(** The keywords of the classifier are lower-case. *)
Lemma keywords_lower tag keywords w :
  In (tag, keywords) keyword_table -> In w keywords -> lower w = w.
Proof.
  unfold keyword_table. simpl.
  intros H Hw.
  repeat (destruct H as [[= <- <-] | H];
          [simpl in Hw;
           repeat (destruct Hw as [<- | Hw]; [reflexivity|]); contradiction|]).
  contradiction.
Qed.

Lemma split_go_nonempty sep skip cur s : split_go sep skip cur s <> [].
Proof.
  revert skip cur.
  induction s as [|c s IH]; intros skip cur; cbn [split_go]; [discriminate|].
  destruct skip; [|apply IH].
  destruct (prefix sep (String c s)); [discriminate | apply IH].
Qed.

(** A separator that occurs in the text cuts it in two pieces at least. *)
Lemma split_two_pieces sep s :
  sep <> EmptyString -> str_in sep s = true ->
  exists first second rest, split sep s = first :: second :: rest.
Proof.
  intros Hsep. unfold split. generalize EmptyString as cur.
  induction s as [|c s IH]; intros cur H; rewrite str_in_unfold in H.
  - rewrite orb_false_r in H. destruct sep; [contradiction | discriminate H].
  - cbn [split_go]. destruct (prefix sep (String c s)) eqn:Hp.
    + destruct (split_go sep (String.length sep - 1) EmptyString s)
        as [|second rest] eqn:E; [now apply split_go_nonempty in E|].
      now exists cur, second, rest.
    + simpl in H. apply IH. exact H.
Qed.

(** The indexing of [unfence] never goes out of range. *)
Lemma unfence_total s : exists cleaned, unfence s = inr cleaned.
Proof.
  assert (Hafter : forall after, exists inside,
             index (split fence after) 0 = inr inside).
  { intros after. unfold split, index.
    destruct (split_go fence 0 EmptyString after) as [|inside rest] eqn:E;
      [now apply split_go_nonempty in E|]. now exists inside. }
  unfold unfence, bind_exn.
  destruct (str_in fence_json s) eqn:Hj.
  - destruct (split_two_pieces fence_json s) as (first & second & rest & ->);
      [discriminate | assumption |].
    change (index (first :: second :: rest) 1) with (@inr exn string second).
    cbv iota beta. destruct (Hafter second) as [inside ->]. now eexists.
  - destruct (str_in fence s) eqn:Hf; [|now eexists].
    destruct (split_two_pieces fence s) as (first & second & rest & ->);
      [discriminate | assumption |].
    change (index (first :: second :: rest) 1) with (@inr exn string second).
    cbv iota beta. destruct (Hafter second) as [inside ->]. now eexists.
Qed.

(** The policy determines the answer. *)
Lemma first_match_functional s table a1 a2 :
  first_match s table a1 -> first_match s table a2 -> a1 = a2.
Proof.
  intros H1. revert a2.
  induction H1 as [|tag keywords rest Hm|tag keywords rest answer Hn H1 IH];
    intros a2 H2; inversion H2; subst; auto; contradiction.
Qed.

End TextFacts.

(* ================================================================== *)
(** ** Facts about the agent *)
(* ================================================================== *)

Section AgentFacts.

(** The classifier answers as the priority list of keyword sets says. *)
Lemma parse_user_request_first_match (text : string) :
  first_match (lower text) keyword_table (action (_parse_user_request text)).
Proof.
  unfold _parse_user_request, keyword_table.
  repeat match goal with
  | |- context [if any_in ?ws ?s then _ else _] =>
      let E := fresh "E" in
      destruct (any_in ws s) eqn:E;
      [ apply first_match_here; now apply any_in_spec
      | apply first_match_later; [now apply any_in_false|] ]
  end.
  apply first_match_none.
Qed.

Lemma parse_user_request_request (text : string) :
  request (_parse_user_request text) = text.
Proof.
  unfold _parse_user_request.
  repeat match goal with
  | |- context [if ?b then _ else _] => destruct b
  end; reflexivity.
Qed.

Lemma parse_user_request_general (text : string) :
  action (_parse_user_request text) = "general" <->
  forall tag keywords,
    In (tag, keywords) keyword_table -> ~ category_matches keywords (lower text).
Proof.
  unfold _parse_user_request, keyword_table. split.
  - intros H tag keywords Hin. apply any_in_false.
    repeat match type of H with
    | context [if any_in ?ws ?s then _ else _] =>
        let E := fresh "E" in
        destruct (any_in ws s) eqn:E; [discriminate H|]
    end.
    simpl in Hin.
    repeat (destruct Hin as [[= <- <-] | Hin]; [assumption|]). contradiction.
  - intros H.
    repeat match goal with
    | |- context [if any_in ?ws ?s then _ else _] =>
        let E := fresh "E" in
        destruct (any_in ws s) eqn:E;
        [ exfalso; apply any_in_spec in E; revert E; eapply H; simpl; eauto 10 |]
    end.
    reflexivity.
Qed.

Lemma parse_user_request_create (text : string) :
  category_matches ["create"; "add"; "new task"] (lower text) ->
  action (_parse_user_request text) = "create".
Proof.
  intros H%any_in_spec. unfold _parse_user_request. now rewrite H.
Qed.

(** A failed extraction yields the empty record. *)
Lemma extract_task_info_failure generate_content json_loads user_request :
  extraction_fails generate_content json_loads user_request ->
  _extract_task_info generate_content json_loads user_request = PDict [].
Proof.
  unfold _extract_task_info, _extract_task_info_try, bind_exn.
  intros [[e H] | (text & H & Hjson)]; rewrite H; [reflexivity|].
  destruct (unfence (strip text)) as [e | cleaned]; [reflexivity|].
  destruct (Hjson cleaned eq_refl) as [e ->]. reflexivity.
Qed.

(** The two failures of [extraction_fails] are the only ways in which the
    [try] block of [_extract_task_info] raises. *)
Lemma extract_task_info_try_raises generate_content json_loads user_request e :
  _extract_task_info_try generate_content json_loads user_request = inl e ->
  extraction_fails generate_content json_loads user_request.
Proof.
  unfold _extract_task_info_try, extraction_fails, bind_exn.
  destruct (generate_content _) as [e0 | text]; [intros _; left; now exists e0|].
  intros H. right. exists text. split; [reflexivity|].
  intros cleaned Hc. rewrite Hc in H. now exists e.
Qed.

(** The dispatcher on an empty parameter record and the store of
    [task_tools.py]: a task with the defaults is appended. *)
Lemma execute_action_create_defaults (now : string) (db : tasks_db) :
  _execute_action "create" (PDict []) now db
  = (TaskCreated (placeholder_task db now), (db ++ [placeholder_task db now])%list).
Proof. reflexivity. Qed.

Section AnyStore.

Context {S : Type} (store : TaskStore S).

(** Without a truthy [task_id] the update and delete branches return their
    error text before any operation of the store is reached: the store,
    whatever its implementation, is returned as it was given. *)
Lemma execute_action_no_task_id (kvs : list (string * pyval)) (now : string) (s : S) :
  truthy (match assoc "task_id" kvs with Some v => v | None => PNone end) = false ->
  @_execute_action S store "update" (PDict kvs) now s
  = (Text "Error: Task ID is required for updates.", s) /\
  @_execute_action S store "delete" (PDict kvs) now s
  = (Text "Error: Task ID is required for deletion.", s).
Proof.
  intros H. unfold _execute_action, try_except, _execute_action_try.
  simpl. unfold bind, pure, get, ret. now rewrite H.
Qed.

End AnyStore.

End AgentFacts.

(* ================================================================== *)
(** ** Properties of the agent *)
(* ================================================================== *)

(** C7.  [_parse_user_request] is a function of the text alone and returns
    the text unchanged beside the tag.  The tag is the one the policy of the
    specification selects on the lower-cased text: keyword sets are tried in
    the order create, list, update, statistics, delete, and the first set one
    of whose keywords occurs in the text gives the tag; the tag is
    [general] exactly when no keyword of any set occurs.  In particular a
    text in which a create keyword and a list keyword both occur (in the
    text as given, or after lower-casing) is classified [create]. *)
Theorem parse_user_request_policy (text : string) :
  let tag := action (_parse_user_request text) in
  request (_parse_user_request text) = text /\
  first_match (lower text) keyword_table tag /\
  (forall answer, first_match (lower text) keyword_table answer -> answer = tag) /\
  (tag = "general" <->
   forall category keywords,
     In (category, keywords) keyword_table ->
     ~ category_matches keywords (lower text)) /\
  (forall kc kl,
     In kc ["create"; "add"; "new task"] ->
     In kl ["list"; "show"; "get tasks"; "tasks"] ->
     occurs kc (lower text) -> occurs kl (lower text) -> tag = "create") /\
  (forall kc kl,
     In kc ["create"; "add"; "new task"] ->
     In kl ["list"; "show"; "get tasks"; "tasks"] ->
     occurs kc text -> occurs kl text -> tag = "create").
Proof.
  intros tag. subst tag.
  split; [apply parse_user_request_request|].
  split; [apply parse_user_request_first_match|].
  split.
  { intros answer H.
    exact (first_match_functional _ _ _ _ H (parse_user_request_first_match text)). }
  split; [apply parse_user_request_general|].
  split.
  - intros kc kl Hkc _ Hoc _. apply parse_user_request_create. now exists kc.
  - intros kc kl Hkc _ Hoc _. apply parse_user_request_create. exists kc.
    split; [assumption|]. apply occurs_lower; [|assumption].
    apply (keywords_lower "create" ["create"; "add"; "new task"]);
      [now left | assumption].
Qed.

Lemma parse_user_request_policy_witness :
  action (_parse_user_request "Create a list of tasks") = "create".
Proof.
  refine (proj1 (proj2 (proj2 (proj2 (proj2
            (parse_user_request_policy "Create a list of tasks")))))
            "create" "list" _ _ _ _).
  - now left.
  - now left.
  - exists "", " a list of tasks". reflexivity.
  - exists "create a ", " of tasks". reflexivity.
Defined.

(** C8.  For a request classified [create] whose parameter extraction fails
    (the model call raises, or [json.loads] raises on the generated text),
    [_extract_task_info] returns the empty record, the dispatcher creates a
    task titled "Untitled Task" with the other defaults, and after
    [process_request] that task is in the store, whatever the model answers
    to the response prompt. *)
Theorem create_survives_extraction_failure
    (generate_content : prompt -> exn + string)
    (json_loads : string -> exn + pyval)
    (user_request now : string) (db : tasks_db) :
  action (_parse_user_request user_request) = "create" ->
  extraction_fails generate_content json_loads user_request ->
  _extract_task_info generate_content json_loads user_request = PDict [] /\
  _execute_action "create" (PDict []) now db
  = (TaskCreated (placeholder_task db now), (db ++ [placeholder_task db now])%list) /\
  snd (process_request generate_content json_loads user_request now db)
  = (db ++ [placeholder_task db now])%list /\
  title (placeholder_task db now) = PStr "Untitled Task".
Proof.
  intros Hcreate Hfail.
  pose proof (extract_task_info_failure _ _ _ Hfail) as Hextract.
  split; [exact Hextract|].
  split; [apply execute_action_create_defaults|].
  split; [|reflexivity].
  unfold process_request. rewrite Hcreate.
  change (needs_params "create") with true. cbv iota.
  rewrite Hextract, execute_action_create_defaults.
  destruct (generate_content _); reflexivity.
Qed.

Lemma create_survives_extraction_failure_witness :
  process_request model_down json_rejects "Create a task to buy milk" "09:00" empty_db
  = ("I encountered an error: 503 service unavailable",
     [placeholder_task empty_db "09:00"]).
Proof.
  pose proof (create_survives_extraction_failure model_down json_rejects
                "Create a task to buy milk" "09:00" empty_db eq_refl
                (or_introl (ex_intro _ (Exception "503 service unavailable") eq_refl)))
    as (_ & _ & Hstore & _).
  destruct (process_request model_down json_rejects "Create a task to buy milk"
              "09:00" empty_db) as [answer db'] eqn:E.
  simpl in Hstore. subst db'.
  vm_compute in E. now injection E as <-.
Defined.

(** C9.  When the parameter record has no [task_id], the dispatcher answers
    an update with "Error: Task ID is required for updates." and a delete
    with "Error: Task ID is required for deletion.", and hands back the
    store it was given.  This holds for every implementation of the store
    operations, so no operation of the store is called; with a store that
    counts the calls made to it, the count stays as it was. *)
Theorem execute_action_requires_task_id
    (S : Type) (store : TaskStore S)
    (kvs : list (string * pyval)) (now : string) (s : S) :
  assoc "task_id" kvs = None ->
  @_execute_action S store "update" (PDict kvs) now s
  = (Text "Error: Task ID is required for updates.", s) /\
  @_execute_action S store "delete" (PDict kvs) now s
  = (Text "Error: Task ID is required for deletion.", s) /\
  forall calls : nat,
    @_execute_action (S * nat) (counted store) "update" (PDict kvs) now (s, calls)
    = (Text "Error: Task ID is required for updates.", (s, calls)) /\
    @_execute_action (S * nat) (counted store) "delete" (PDict kvs) now (s, calls)
    = (Text "Error: Task ID is required for deletion.", (s, calls)).
Proof.
  intros H.
  assert (Hfalsy : truthy (match assoc "task_id" kvs with
                           | Some v => v
                           | None => PNone
                           end) = false) by now rewrite H.
  destruct (execute_action_no_task_id store kvs now s Hfalsy) as [Hu Hd].
  repeat split; try assumption;
    now apply (execute_action_no_task_id (counted store) kvs now (s, calls)).
Qed.

Lemma execute_action_requires_task_id_witness :
  let db := run [create_default "a" "09:00"] empty_db in
  let params := PDict [("status", PStr "completed")] in
  @_execute_action tasks_db in_memory "update" params "09:05" db
  = (Text "Error: Task ID is required for updates.", db) /\
  @_execute_action tasks_db in_memory "delete" params "09:05" db
  = (Text "Error: Task ID is required for deletion.", db).
Proof.
  intros db params.
  destruct (execute_action_requires_task_id tasks_db in_memory
              [("status", PStr "completed")] "09:05" db eq_refl) as (Hu & Hd & _).
  split; assumption.
Defined.

(* ================================================================== *)
(** ** Further facts about the task store *)
(* ================================================================== *)

Section MoreStoreFacts.

Implicit Types (db : tasks_db) (t : task) (p q : task -> bool).


Lemma len_filter_app p (l1 l2 : list task) :
  len (filter p (l1 ++ l2)%list) = len (filter p l1) + len (filter p l2).
Proof. unfold len. rewrite filter_app, length_app. lia. Qed.

Lemma len_nonneg db : 0 <= len db.
Proof. unfold len. lia. Qed.

Lemma mutate_first_split p (f : task -> task) (l1 l2 : list task) t :
  forallb (fun x => negb (p x)) l1 = true ->
  p t = true ->
  mutate_first p f (l1 ++ t :: l2)%list = (l1 ++ f t :: l2)%list.
Proof.
  intros Hl1 Ht. induction l1 as [|x l1 IH]; simpl in *.
  - now rewrite Ht.
  - apply andb_prop in Hl1 as [Hx Hl1]. apply negb_true_iff in Hx.
    rewrite Hx. now rewrite IH.
Qed.

Lemma mutate_first_same p (f : task -> task) db :
  (forall x, f x = x) -> mutate_first p f db = db.
Proof.
  intros Hf. induction db as [|x db IH]; simpl; [reflexivity|].
  destruct (p x); now rewrite ?Hf, ?IH.
Qed.

Lemma find_filter_none p db : find p (filter (fun x => negb (p x)) db) = None.
Proof.
  induction db as [|x db IH]; simpl; [reflexivity|].
  destruct (p x) eqn:Hx; simpl; [exact IH|]. now rewrite Hx.
Qed.

Lemma find_filter_compatible p q db :
  (forall x, q x = true -> p x = true) ->
  find q (filter p db) = find q db.
Proof.
  intros H. induction db as [|x db IH]; simpl; [reflexivity|].
  destruct (p x) eqn:Hp; simpl.
  - now rewrite IH.
  - destruct (q x) eqn:Hq; [|exact IH]. apply H in Hq. congruence.
Qed.

Lemma filter_negb_shorter p db :
  (len (filter (fun x => negb (p x)) db) <? len db) = true <-> find p db <> None.
Proof.
  rewrite Z.ltb_lt. induction db as [|x db IH].
  - simpl. split; [lia | intros H; now elim H].
  - rewrite len_filter_cons, len_cons. simpl find.
    pose proof (len_filter_le (fun x => negb (p x)) db).
    destruct (p x); cbn [negb].
    + split; [discriminate | intros _; lia].
    + rewrite <- IH. lia.
Qed.

Lemma has_id_non_numeric i t : numeric i = false -> has_id i t = false.
Proof. unfold has_id. destruct i; simpl; intros H; reflexivity || discriminate H. Qed.

Lemma find_in_false p db :
  (forall x, In x db -> p x = false) -> find p db = None.
Proof.
  induction db as [|x db IH]; simpl; intros H; [reflexivity|].
  rewrite (H x) by now left. apply IH. intros y Hy. apply H. now right.
Qed.

Lemma find_all_false p db : (forall x, p x = false) -> find p db = None.
Proof.
  intros H. induction db as [|x db IH]; simpl; [reflexivity|]. now rewrite H.
Qed.

Lemma apply_updates_none t now :
  apply_updates t PNone PNone PNone PNone PNone now = t.
Proof. now destruct t. Qed.

(** Counts of three predicates no two of which hold together. *)
Lemma three_way_bound (p1 p2 p3 : task -> bool) db :
  (forall t, Z.b2z (p1 t) + Z.b2z (p2 t) + Z.b2z (p3 t) <= 1) ->
  len (filter p1 db) + len (filter p2 db) + len (filter p3 db) <= len db.
Proof.
  intros H. induction db as [|t db IH]; [reflexivity|].
  rewrite !len_filter_cons, len_cons. specialize (H t).
  destruct (p1 t), (p2 t), (p3 t); simpl in H; lia.
Qed.

Lemma py_eq_str_exclusive v (a b c : string) :
  a <> b -> a <> c -> b <> c ->
  Z.b2z (py_eq v (PStr a)) + Z.b2z (py_eq v (PStr b)) + Z.b2z (py_eq v (PStr c)) <= 1.
Proof.
  intros Hab Hac Hbc.
  destruct (py_eq v (PStr a)) eqn:Ea, (py_eq v (PStr b)) eqn:Eb,
    (py_eq v (PStr c)) eqn:Ec; simpl; try lia;
    repeat match goal with
    | H : py_eq _ (PStr _) = true |- _ => apply py_eq_str_r in H
    end; subst; congruence.
Qed.

Lemma within_step n db o :
  within n db -> within (n + (if is_create o then 1 else 0)) (step db o).
Proof.
  intros [Hlen Hids]. destruct o as [ti de pr du now | i ti de pr st du now | i]; simpl.
  - split.
    + rewrite len_app_one. lia.
    + apply Forall_app. split.
      * eapply Forall_impl; [|exact Hids]. simpl. intros; lia.
      * constructor; [|constructor]. simpl. pose proof (len_nonneg db). lia.
  - rewrite Z.add_0_r. split.
    + now rewrite update_task_length.
    + apply Forall_forall. intros x Hx.
      assert (Hin : In (id x) (ids (snd (update_task i ti de pr st du now db))))
        by (now apply in_map).
      rewrite update_task_ids in Hin. apply in_map_iff in Hin as (y & <- & Hy).
      rewrite Forall_forall in Hids. now apply Hids.
  - rewrite Z.add_0_r. unfold delete_task.
    assert (Hw : within n (filter (fun t => negb (has_id i t)) db)).
    { split.
      - pose proof (len_filter_le (fun t => negb (has_id i t)) db). lia.
      - apply Forall_forall. intros x [Hx _]%filter_In.
        rewrite Forall_forall in Hids. now apply Hids. }
    now destruct (_ <? _).
Qed.

Lemma creations_cons o ops :
  creations (o :: ops) = (if is_create o then 1 else 0) + creations ops.
Proof.
  unfold creations. simpl. destruct (is_create o); simpl List.length; lia.
Qed.

Lemma within_run ops n db :
  within n db -> within (n + creations ops) (run ops db).
Proof.
  revert n db. induction ops as [|o ops IH]; intros n db H.
  - unfold creations. simpl. now rewrite Z.add_0_r.
  - rewrite run_cons, creations_cons, Z.add_assoc. apply IH. now apply within_step.
Qed.

End MoreStoreFacts.

(* ================================================================== *)
(** ** Further properties of the task store *)
(* ================================================================== *)



(** X2.  Creation and statistics.  After [create_task] the total and the
    pending count are one higher, the in_progress and completed counts are as
    before, and each priority count grows by one exactly when the priority
    given equals its name. *)
Theorem create_task_statistics
    (ti de pr du : pyval) (now : string) (db : tasks_db) :
  let before := get_statistics db in
  let after := get_statistics (snd (create_task ti de pr du now db)) in
  total after = total before + 1 /\
  pending after = pending before + 1 /\
  in_progress after = in_progress before /\
  completed after = completed before /\
  high_priority after = high_priority before + Z.b2z (py_eq pr (PStr "high")) /\
  medium_priority after = medium_priority before + Z.b2z (py_eq pr (PStr "medium")) /\
  low_priority after = low_priority before + Z.b2z (py_eq pr (PStr "low")).
Proof.
  intros before after. subst before after. rewrite create_task_appends.
  unfold get_statistics. cbn [total pending in_progress completed high_priority
                              medium_priority low_priority].
  rewrite len_app_one, !len_filter_app.
  cbn [create_task fst filter status priority py_eq String.eqb Ascii.eqb Bool.eqb].
  repeat split; try (unfold len; simpl List.length; lia);
    destruct (py_eq pr _); reflexivity.
Qed.

(** X3.  An update changes one task.  When [get_task] finds [t] under an
    id, [update_task] replaces that occurrence of [t] by the task it returns
    and leaves every other position of the list as it was; the task returned
    keeps the id and the creation time. *)
Theorem update_task_changes_one_task
    (db : tasks_db) (i : pyval) (t : task) (ti de pr st du : pyval) (now : string) :
  get_task i db = Some t ->
  exists l1 l2 t',
    db = (l1 ++ t :: l2)%list /\
    get_task i l1 = None /\
    update_task i ti de pr st du now db = (Some t', (l1 ++ t' :: l2)%list) /\
    id t' = id t /\ created_at t' = created_at t.
Proof.
  unfold get_task. intros H.
  destruct (find_split _ _ _ H) as (l1 & l2 & Hdb & Ht & Hl1).
  exists l1, l2, (apply_updates t ti de pr st du now).
  split; [exact Hdb|]. split.
  { apply find_in_false. intros x Hx. rewrite forallb_forall in Hl1.
    apply negb_true_iff. now apply Hl1. }
  split; [|split; [apply apply_updates_id | apply apply_updates_created_at]].
  unfold update_task. rewrite H. f_equal. rewrite Hdb.
  now apply (mutate_first_split (has_id i)
               (fun x => apply_updates x ti de pr st du now)).
Qed.

Lemma update_task_changes_one_task_witness :
  let db := run [create_default "a" "09:00"; create_default "b" "09:01"] empty_db in
  exists l1 l2 t',
    db = (l1 ++ fst (create_task (PStr "b") (PStr "") (PStr "medium") PNone "09:01"
                                 (run [create_default "a" "09:00"] empty_db))
             :: l2)%list /\
    update_task (PInt 2) PNone PNone (PStr "high") PNone PNone "09:05" db
    = (Some t', (l1 ++ t' :: l2)%list).
Proof.
  intros db.
  destruct (update_task_changes_one_task db (PInt 2)
              (fst (create_task (PStr "b") (PStr "") (PStr "medium") PNone "09:01"
                                (run [create_default "a" "09:00"] empty_db)))
              PNone PNone (PStr "high") PNone PNone "09:05" eq_refl)
    as (l1 & l2 & t' & Hdb & _ & Hupd & _).
  exists l1, l2, t'. split; assumption.
Defined.

(** X4.  Update of an absent id.  [update_task] returns None exactly when no
    task carries the id, and then the store is returned as it was given. *)
Theorem update_task_absent
    (db : tasks_db) (i ti de pr st du : pyval) (now : string) :
  (fst (update_task i ti de pr st du now db) = None <-> get_task i db = None) /\
  (get_task i db = None -> update_task i ti de pr st du now db = (None, db)).
Proof.
  unfold get_task, update_task. destruct (find (has_id i) db); simpl; split;
    try split; intros; try discriminate; reflexivity.
Qed.

(** X5.  What a deletion returns and leaves.  [delete_task] returns True
    exactly when some task carried the id; afterwards no task carries it;
    and deleting the same id again returns False and changes nothing. *)
Theorem delete_task_then_absent (db : tasks_db) (i : pyval) :
  let db' := snd (delete_task i db) in
  (fst (delete_task i db) = true <-> get_task i db <> None) /\
  get_task i db' = None /\
  delete_task i db' = (false, db').
Proof.
  intros db'. subst db'.
  assert (Hsnd : snd (delete_task i db) = filter (fun t => negb (has_id i t)) db).
  { unfold delete_task. now destruct (_ <? _). }
  assert (Hgone : get_task i (snd (delete_task i db)) = None).
  { rewrite Hsnd. apply (find_filter_none (has_id i)). }
  split; [|split; [exact Hgone | now apply delete_task_absent]].
  rewrite <- (filter_negb_shorter (has_id i) db). unfold delete_task.
  destruct (_ <? _); simpl; split; congruence.
Qed.

(** X6.  A deletion leaves the other ids alone.  After [delete_task(a)] a
    lookup of a different integer id finds what it found before, and the
    tasks left are those of the store whose id is not [a]. *)
Theorem delete_task_keeps_other_ids (db : tasks_db) (a b : Z) :
  a <> b ->
  let db' := snd (delete_task (PInt a) db) in
  get_task (PInt b) db' = get_task (PInt b) db /\
  forall t, In t db' <-> In t db /\ id t <> a.
Proof.
  intros Hab db'. subst db'.
  assert (Hsnd : snd (delete_task (PInt a) db)
                 = filter (fun t => negb (has_id (PInt a) t)) db).
  { unfold delete_task. now destruct (_ <? _). }
  rewrite Hsnd. split.
  - unfold get_task. apply find_filter_compatible.
    intros x Hx. unfold has_id in *. simpl in *.
    apply Z.eqb_eq in Hx. apply negb_true_iff, Z.eqb_neq. lia.
  - intros t. rewrite filter_In. unfold has_id. simpl.
    rewrite negb_true_iff, Z.eqb_neq. reflexivity.
Qed.

Lemma delete_task_keeps_other_ids_witness :
  let db := run [create_default "a" "09:00"; create_default "b" "09:01"] empty_db in
  get_task (PInt 2) (snd (delete_task (PInt 1) db)) = get_task (PInt 2) db.
Proof.
  intros db.
  refine (proj1 (delete_task_keeps_other_ids db 1 2 _)). discriminate.
Defined.

(** X7.  Listing by status.  A falsy filter (None, the empty string) lists
    the whole store; a non-empty status string lists exactly the tasks with
    that status; listing distributes over concatenation, so the order of the
    store is kept; and the number of tasks listed for "pending",
    "in_progress" and "completed" is the count [get_statistics] reports. *)
Theorem list_tasks_by_status (db : tasks_db) :
  (forall f, truthy f = false -> list_tasks f db = db) /\
  (forall s t, s <> "" ->
     (In t (list_tasks (PStr s) db) <-> In t db /\ status t = PStr s)) /\
  (forall f db1 db2,
     list_tasks f (db1 ++ db2)%list = (list_tasks f db1 ++ list_tasks f db2)%list) /\
  len (list_tasks (PStr "pending") db) = pending (get_statistics db) /\
  len (list_tasks (PStr "in_progress") db) = in_progress (get_statistics db) /\
  len (list_tasks (PStr "completed") db) = completed (get_statistics db).
Proof.
  split; [|split; [|split]].
  - intros f Hf. unfold list_tasks. now rewrite Hf.
  - intros s t Hs. unfold list_tasks. rewrite (truthy_PStr_nonempty s Hs).
    rewrite filter_In. now rewrite py_eq_str_r.
  - intros f db1 db2. unfold list_tasks. destruct (truthy f); [apply filter_app | reflexivity].
  - repeat split.
Qed.

(** X8.  Statistics never over-count.  For every store, whatever statuses
    and priorities the tasks carry, each count is non-negative, the three
    status counts together are at most [total], and so are the three
    priority counts. *)
Theorem statistics_counts_bounded (db : tasks_db) :
  let st := get_statistics db in
  0 <= total st /\
  0 <= pending st /\ 0 <= in_progress st /\ 0 <= completed st /\
  0 <= high_priority st /\ 0 <= medium_priority st /\ 0 <= low_priority st /\
  pending st + in_progress st + completed st <= total st /\
  low_priority st + medium_priority st + high_priority st <= total st.
Proof.
  unfold get_statistics. cbn [total pending in_progress completed high_priority
                              medium_priority low_priority].
  repeat (split; [apply len_nonneg|]). split.
  - apply three_way_bound. intros t. apply py_eq_str_exclusive; discriminate.
  - apply three_way_bound. intros t. apply py_eq_str_exclusive; discriminate.
Qed.

(** X9.  Bounds kept by every run.  In the store reached from the empty one
    by any sequence of operations, there are at most as many tasks as
    creations were made, and every id lies between 1 and that number. *)
Theorem reachable_ids_bounded (ops : list op) :
  len (run ops empty_db) <= creations ops /\
  forall t, In t (run ops empty_db) -> 1 <= id t <= creations ops.
Proof.
  assert (H0 : within 0 empty_db) by (split; [reflexivity | constructor]).
  destruct (within_run ops 0 empty_db H0) as [Hlen Hids].
  rewrite Z.add_0_l in *. split; [exact Hlen|].
  intros t Ht. rewrite Forall_forall in Hids. now apply Hids.
Qed.

(** X10.  Ids without deletions.  In a run without deletions the ids in the
    store are 1, 2, ..., n in insertion order, n being the number of
    creations. *)
Theorem ids_sequential_without_delete (ops : list op) :
  forallb (fun o => negb (is_delete o)) ops = true ->
  ids (run ops empty_db)
  = map Z.of_nat (seq 1 (List.length (filter is_create ops))).
Proof.
  intros H. rewrite ids_run_without_delete by assumption.
  rewrite assigned_ids_without_delete by assumption. reflexivity.
Qed.

Lemma ids_sequential_without_delete_witness :
  ids (run [create_default "a" "09:00"; update_status 1 "completed" "09:05";
            create_default "b" "09:10"; create_default "c" "09:20"] empty_db)
  = [1; 2; 3].
Proof.
  exact (ids_sequential_without_delete
           [create_default "a" "09:00"; update_status 1 "completed" "09:05";
            create_default "b" "09:10"; create_default "c" "09:20"] eq_refl).
Defined.

(** X11.  Ids that are not numbers.  A task id that is None, a string, a
    list or a dictionary equals the id of no task: the lookup finds nothing,
    the update returns None and the deletion returns False, and the store
    stays as it was. *)
Theorem non_numeric_id_never_matches
    (db : tasks_db) (i ti de pr st du : pyval) (now : string) :
  numeric i = false ->
  get_task i db = None /\
  update_task i ti de pr st du now db = (None, db) /\
  delete_task i db = (false, db).
Proof.
  intros Hi.
  assert (Hnone : get_task i db = None).
  { apply find_all_false. intros x. now apply has_id_non_numeric. }
  split; [exact Hnone|]. split.
  - now apply update_task_not_found.
  - now apply delete_task_absent.
Qed.

Lemma non_numeric_id_never_matches_witness :
  let db := run [create_default "a" "09:00"] empty_db in
  get_task (PStr "1") db = None /\
  update_task (PStr "1") PNone PNone PNone (PStr "completed") PNone "09:05" db
  = (None, db) /\
  delete_task (PStr "1") db = (false, db).
Proof.
  intros db.
  exact (non_numeric_id_never_matches db (PStr "1") PNone PNone PNone
           (PStr "completed") PNone "09:05" eq_refl).
Defined.

(** X12.  Filtering by priority.  [get_tasks_by_priority] with a priority
    string returns exactly the tasks with that priority, in the order of the
    store, and for "high", "medium" and "low" as many as [get_statistics]
    counts. *)
Theorem get_tasks_by_priority_spec (db : tasks_db) :
  (forall s t,
     In t (get_tasks_by_priority (PStr s) db) <-> In t db /\ priority t = PStr s) /\
  (forall pr db1 db2,
     get_tasks_by_priority pr (db1 ++ db2)%list
     = (get_tasks_by_priority pr db1 ++ get_tasks_by_priority pr db2)%list) /\
  len (get_tasks_by_priority (PStr "high") db) = high_priority (get_statistics db) /\
  len (get_tasks_by_priority (PStr "medium") db) = medium_priority (get_statistics db) /\
  len (get_tasks_by_priority (PStr "low") db) = low_priority (get_statistics db).
Proof.
  split; [|split].
  - intros s t. unfold get_tasks_by_priority. rewrite filter_In.
    now rewrite py_eq_str_r.
  - intros pr db1 db2. apply filter_app.
  - repeat split.
Qed.

(* ================================================================== *)
(** ** Further facts about text and the agent *)
(* ================================================================== *)

Section MoreTextFacts.

Implicit Types (s w cur : string).

Lemma append_empty_r s : s ++ "" = s.
Proof. induction s as [|c s IH]; simpl; [reflexivity|]. now rewrite IH. Qed.

Lemma append_assoc s1 s2 s3 : (s1 ++ s2) ++ s3 = s1 ++ s2 ++ s3.
Proof. induction s1 as [|c s1 IH]; simpl; [reflexivity|]. now rewrite IH. Qed.

Lemma lower_char_idempotent (c : ascii) : lower_char (lower_char c) = lower_char c.
Proof. destruct c as [[] [] [] [] [] [] [] []]; reflexivity. Qed.

Lemma lower_idempotent s : lower (lower s) = lower s.
Proof.
  induction s as [|c s IH]; simpl; [reflexivity|].
  now rewrite lower_char_idempotent, IH.
Qed.

(** Without an occurrence of the separator the text is one piece. *)
Lemma split_go_single sep cur s :
  str_in sep s = false -> split_go sep 0 cur s = [cur ++ s].
Proof.
  revert cur. induction s as [|c s IH]; intros cur H; cbn [split_go].
  - now rewrite append_empty_r.
  - rewrite str_in_unfold in H. apply orb_false_elim in H as [Hp Hs].
    rewrite Hp, (IH _ Hs), append_assoc. reflexivity.
Qed.

Lemma split_go_skip sep w cur s :
  split_go sep (String.length w) cur (w ++ s) = split_go sep 0 cur s.
Proof.
  induction w as [|c w IH]; [reflexivity|]. simpl. exact IH.
Qed.

(** A text that starts with the separator: an empty first piece, then the
    pieces of what follows the separator. *)
Lemma split_leading_separator c sep s :
  split (String c sep) (String c sep ++ s)
  = EmptyString :: split_go (String c sep) 0 EmptyString s.
Proof.
  unfold split. cbn [split_go append].
  assert (Hp : prefix (String c sep) (String c (sep ++ s)) = true).
  { apply prefix_spec. now exists s. }
  rewrite Hp.
  replace (String.length (String c sep) - 1)%nat with (String.length sep)
    by (simpl; lia).
  now rewrite split_go_skip.
Qed.

(** The first piece of a text cut at a fence, when no backtick comes before
    the fence. *)
Lemma split_go_fence_head cur body rest :
  no_backtick body = true ->
  exists pieces,
    split_go fence 0 cur (body ++ fence ++ rest) = (cur ++ body) :: pieces.
Proof.
  revert cur. induction body as [|c body IH]; intros cur H.
  - assert (Hp : prefix fence (fence ++ rest) = true)
      by (apply prefix_spec; now exists rest).
    rewrite append_empty_r. unfold fence in *. cbn [append split_go] in *.
    rewrite Hp. now eexists.
  - simpl in H. apply andb_prop in H as [Hc Hbody].
    apply negb_true_iff, Ascii.eqb_neq in Hc.
    cbn [append split_go].
    assert (Hp : prefix fence (String c (body ++ fence ++ rest)) = false).
    { unfold fence. cbn [prefix]. destruct (ascii_dec "`" c) as [E|E]; [|reflexivity].
      now elim Hc. }
    rewrite Hp. destruct (IH (cur ++ String c "") Hbody) as [pieces ->].
    exists pieces. now rewrite append_assoc.
Qed.

End MoreTextFacts.

Section MoreAgentFacts.

Lemma needs_params_false (action : string) :
  ~ In action ["create"; "update"; "delete"] -> needs_params action = false.
Proof.
  unfold needs_params. simpl. intros H.
  repeat match goal with
  | |- context [(action =? ?s)%string] =>
      destruct (String.eqb_spec action s); [exfalso; apply H; subst; tauto|]
  end.
  reflexivity.
Qed.

(** The dispatcher on the store of [task_tools.py], branch by branch. *)

Lemma execute_action_update_dict kvs now (db : tasks_db) :
  let param key := match assoc key kvs with Some v => v | None => PNone end in
  truthy (param "task_id") = true ->
  _execute_action "update" (PDict kvs) now db
  = (match fst (update_task (param "task_id") (param "title") (param "description")
                            (param "priority") (param "status") PNone now db) with
     | Some t => TaskUpdated (param "task_id") t
     | None => TaskNotFound (param "task_id")
     end,
     snd (update_task (param "task_id") (param "title") (param "description")
                      (param "priority") (param "status") PNone now db)).
Proof.
  intros param H. subst param.
  unfold _execute_action, try_except, _execute_action_try. simpl.
  unfold bind, pure, get, ret, call. rewrite H. simpl.
  destruct (update_task _ _ _ _ _ _ _ _) as [[t|] db']; reflexivity.
Qed.

Lemma execute_action_delete_dict kvs now (db : tasks_db) :
  let param key := match assoc key kvs with Some v => v | None => PNone end in
  truthy (param "task_id") = true ->
  _execute_action "delete" (PDict kvs) now db
  = (if fst (delete_task (param "task_id") db)
     then TaskDeleted (param "task_id") else TaskNotFound (param "task_id"),
     snd (delete_task (param "task_id") db)).
Proof.
  intros param H. subst param.
  unfold _execute_action, try_except, _execute_action_try. simpl.
  unfold bind, pure, get, ret, call. rewrite H. simpl.
  destruct (delete_task _ _) as [[] db']; reflexivity.
Qed.

Lemma execute_action_non_dict {S : Type} (store : TaskStore S)
    (action : string) (params : pyval) now (s : S) :
  (forall kvs, params <> PDict kvs) ->
  In action ["create"; "list"; "update"; "delete"] ->
  @_execute_action S store action params now s
  = (Text ("Error executing action: '" ++ type_name params
           ++ "' object has no attribute 'get'"), s).
Proof.
  intros Hnd Hin. simpl in Hin.
  destruct params; try (now elim (Hnd kvs));
    repeat (destruct Hin as [<- | Hin]; [reflexivity|]); contradiction.
Qed.

Lemma execute_action_other {S : Type} (store : TaskStore S)
    (action : string) (params : pyval) now (s : S) :
  ~ In action dispatched_actions ->
  @_execute_action S store action params now s = (Text general_help, s).
Proof.
  unfold dispatched_actions. simpl. intros H.
  unfold _execute_action, try_except, _execute_action_try.
  repeat match goal with
  | |- context [(action =? ?a)%string] =>
      destruct (String.eqb_spec action a); [exfalso; apply H; subst; tauto|]
  end.
  reflexivity.
Qed.

Lemma execute_action_list_store params now (db : tasks_db) :
  snd (_execute_action "list" params now db) = db.
Proof.
  destruct params; try reflexivity.
  unfold _execute_action, try_except, _execute_action_try. simpl.
  unfold bind, pure, get, ret, call. simpl.
  destruct (list_tasks _ db); reflexivity.
Qed.

Lemma execute_action_read_only_store action params now (db : tasks_db) :
  ~ In action ["create"; "update"; "delete"] ->
  snd (_execute_action action params now db) = db.
Proof.
  intros H.
  destruct (String.eqb_spec action "list") as [-> | Hl];
    [apply execute_action_list_store|].
  destruct (String.eqb_spec action "statistics") as [-> | Hs]; [reflexivity|].
  rewrite execute_action_other; [reflexivity|].
  unfold dispatched_actions. simpl. simpl in H. intuition congruence.
Qed.

(** Every branch of the dispatcher leaves at most one task more. *)
Lemma execute_action_length action params now (db : tasks_db) :
  len (snd (_execute_action action params now db)) <= len db + 1.
Proof.
  destruct (String.eqb_spec action "create") as [-> | Hc].
  { destruct params; try (simpl; lia).
    unfold _execute_action, try_except, _execute_action_try. simpl.
    unfold bind, pure, get, ret, call. simpl. rewrite len_app_one. lia. }
  destruct (String.eqb_spec action "update") as [-> | Hu].
  { destruct params; try (simpl; lia).
    destruct (truthy (match assoc "task_id" kvs with Some v => v | None => PNone end))
      eqn:Hid.
    - rewrite (execute_action_update_dict kvs now db Hid). cbn [snd].
      rewrite update_task_length. lia.
    - destruct (execute_action_no_task_id in_memory kvs now db Hid) as [-> _].
      simpl. lia. }
  destruct (String.eqb_spec action "delete") as [-> | Hd].
  { destruct params; try (simpl; lia).
    destruct (truthy (match assoc "task_id" kvs with Some v => v | None => PNone end))
      eqn:Hid.
    - rewrite (execute_action_delete_dict kvs now db Hid). cbn [snd].
      unfold delete_task.
      pose proof (len_filter_le (fun t => negb (has_id
        (match assoc "task_id" kvs with Some v => v | None => PNone end) t)) db).
      destruct (_ <? _); simpl; lia.
    - destruct (execute_action_no_task_id in_memory kvs now db Hid) as [_ ->].
      simpl. lia. }
  rewrite execute_action_read_only_store; [lia|].
  simpl. intuition congruence.
Qed.

End MoreAgentFacts.

(* ================================================================== *)
(** ** Further properties of the agent *)
(* ================================================================== *)

(** X13.  Tags and letter case.  The tag returned by [_parse_user_request]
    is one of create, list, update, statistics, delete and general, and it
    depends on the text only through its lower-cased form: two texts that
    differ in letter case only get the same tag. *)
Theorem parse_user_request_ignores_case (text : string) :
  In (action (_parse_user_request text))
     ["create"; "list"; "update"; "statistics"; "delete"; "general"] /\
  action (_parse_user_request (lower text)) = action (_parse_user_request text) /\
  forall other,
    lower other = lower text ->
    action (_parse_user_request other) = action (_parse_user_request text).
Proof.
  assert (Hsame : forall other, lower other = lower text ->
            action (_parse_user_request other) = action (_parse_user_request text)).
  { intros other H. unfold _parse_user_request. rewrite H.
    repeat match goal with
    | |- context [if ?b then _ else _] => destruct b; [reflexivity|]
    end.
    reflexivity. }
  split; [|split; [apply Hsame, lower_idempotent | exact Hsame]].
  unfold _parse_user_request.
  repeat match goal with
  | |- context [if ?b then _ else _] => destruct b; [simpl; auto 10|]
  end.
  simpl. auto 10.
Qed.

(** X14.  List keywords shadow the later categories.  A text in which
    "list", "show", "get tasks" or "tasks" occurs is classified create or
    list, never update, statistics or delete; so the request "Show me task
    statistics" of the help text is handled as a listing. *)
Theorem list_keyword_shadows_later_tags (text : string) :
  category_matches ["list"; "show"; "get tasks"; "tasks"] (lower text) ->
  action (_parse_user_request text) = "create" \/
  action (_parse_user_request text) = "list".
Proof.
  intros H%any_in_spec. unfold _parse_user_request. rewrite H.
  destruct (any_in ["create"; "add"; "new task"] (lower text)); simpl; auto.
Qed.

Lemma list_keyword_shadows_later_tags_witness :
  action (_parse_user_request "Show me task statistics") = "list".
Proof.
  destruct (list_keyword_shadows_later_tags "Show me task statistics") as [H | H].
  - exists "show". split; [simpl; auto|].
    exists "", " me task statistics". reflexivity.
  - discriminate H.
  - exact H.
Defined.

(** X15.  Where extraction can fail.  When the [try] block of
    [_extract_task_info] raises, the exception is the one raised by the model
    call or by [json.loads]: removing the code fence never raises, its
    indexing never goes out of range. *)
Theorem extraction_raises_only_in_calls
    (generate_content : prompt -> exn + string)
    (json_loads : string -> exn + pyval) (user_request : string) (e : exn) :
  _extract_task_info_try generate_content json_loads user_request = inl e ->
  generate_content (ExtractionPrompt user_request) = inl e \/
  exists text cleaned,
    generate_content (ExtractionPrompt user_request) = inr text /\
    unfence (strip text) = inr cleaned /\
    json_loads cleaned = inl e.
Proof.
  unfold _extract_task_info_try, bind_exn.
  destruct (generate_content _) as [e0 | text]; [intros [= ->]; now left|].
  destruct (unfence_total (strip text)) as [cleaned Hc]. rewrite Hc.
  intros H. right. now exists text, cleaned.
Qed.

Lemma extraction_raises_only_in_calls_witness :
  exists text cleaned,
    model_chatty (ExtractionPrompt "add milk") = inr text /\
    unfence (strip text) = inr cleaned /\
    json_rejects cleaned
    = inl (JSONDecodeError "Expecting value: line 1 column 1 (char 0)").
Proof.
  destruct (extraction_raises_only_in_calls model_chatty json_rejects "add milk"
              (JSONDecodeError "Expecting value: line 1 column 1 (char 0)") eq_refl)
    as [H | H]; [discriminate H | exact H].
Defined.

(** X16.  Unwrapping a json code fence.  When the generated text, stripped,
    starts with the json fence, followed by a body without backticks, a
    closing fence and a rest in which no further json fence occurs, the text
    handed to [json.loads] is the body, stripped. *)
Theorem extract_task_info_json_block
    (generate_content : prompt -> exn + string)
    (json_loads : string -> exn + pyval)
    (user_request text body rest : string) :
  generate_content (ExtractionPrompt user_request) = inr text ->
  strip text = fence_json ++ body ++ fence ++ rest ->
  no_backtick body = true ->
  str_in fence_json (body ++ fence ++ rest) = false ->
  _extract_task_info_try generate_content json_loads user_request
  = json_loads (strip body).
Proof.
  intros Hgen Htext Hbody Hrest.
  unfold _extract_task_info_try, bind_exn. rewrite Hgen, Htext.
  assert (Hin : str_in fence_json (fence_json ++ body ++ fence ++ rest) = true).
  { apply str_in_spec, occurs_here, prefix_spec. now eexists. }
  unfold unfence, bind_exn. rewrite Hin.
  unfold fence_json at 1 2. rewrite split_leading_separator.
  fold fence_json. rewrite (split_go_single _ _ _ Hrest).
  cbn [index nth_error append].
  unfold split. destruct (split_go_fence_head "" body rest Hbody) as [pieces ->].
  reflexivity.
Qed.

Lemma extract_task_info_json_block_witness :
  _extract_task_info model_fenced json_empty_list_only "add milk" = PList [].
Proof.
  unfold _extract_task_info.
  rewrite (extract_task_info_json_block model_fenced json_empty_list_only "add milk"
             (" ```json" ++ nl ++ "[]" ++ nl ++ "``` ") (nl ++ "[]" ++ nl) ""
             eq_refl eq_refl eq_refl eq_refl).
  reflexivity.
Defined.

(** X17.  Parameters that are not a dictionary.  When the extracted value
    is not a dictionary (the model answered a JSON list, string or number),
    the create, list, update and delete branches answer "Error executing
    action: '<type>' object has no attribute 'get'" and hand the store back
    as given, whatever the store implementation: no operation is called. *)
Theorem execute_action_rejects_non_dict
    (S : Type) (store : TaskStore S)
    (action : string) (params : pyval) (now : string) (s : S) :
  (forall kvs, params <> PDict kvs) ->
  In action ["create"; "list"; "update"; "delete"] ->
  @_execute_action S store action params now s
  = (Text ("Error executing action: '" ++ type_name params
           ++ "' object has no attribute 'get'"), s) /\
  forall calls : nat,
    snd (@_execute_action (S * nat) (counted store) action params now (s, calls))
    = (s, calls).
Proof.
  intros Hnd Hin. split; [now apply execute_action_non_dict|].
  intros calls. now rewrite (execute_action_non_dict (counted store)).
Qed.

Lemma execute_action_rejects_non_dict_witness :
  @_execute_action tasks_db in_memory "create" (PList [PStr "buy milk"]) "09:00" empty_db
  = (Text "Error executing action: 'list' object has no attribute 'get'", empty_db).
Proof.
  refine (proj1 (execute_action_rejects_non_dict tasks_db in_memory "create"
                   (PList [PStr "buy milk"]) "09:00" empty_db _ _)).
  - discriminate.
  - now left.
Defined.

(** X18.  Unknown actions.  For an action other than create, list, update,
    delete and statistics the dispatcher returns the fixed help text,
    whatever the parameters, and hands the store back as given, whatever the
    store implementation. *)
Theorem execute_action_unknown_action
    (S : Type) (store : TaskStore S)
    (action : string) (params : pyval) (now : string) (s : S) :
  ~ In action dispatched_actions ->
  @_execute_action S store action params now s = (Text general_help, s).
Proof. apply execute_action_other. Qed.

Lemma execute_action_unknown_action_witness :
  @_execute_action tasks_db in_memory "general" PNone "09:00" empty_db
  = (Text general_help, empty_db).
Proof.
  apply (execute_action_unknown_action tasks_db in_memory "general" PNone "09:00"
           empty_db).
  unfold dispatched_actions. simpl. intuition discriminate.
Defined.

(** X19.  Actions that only read.  On the store of [task_tools.py], every
    action other than create, update and delete leaves the list of tasks as
    it was, whatever the parameters; and the statistics action reports
    [get_statistics] of that list without looking at the parameters. *)
Theorem execute_action_read_only
    (action : string) (params : pyval) (now : string) (db : tasks_db) :
  ~ In action ["create"; "update"; "delete"] ->
  snd (_execute_action action params now db) = db /\
  _execute_action "statistics" params now db = (Statistics (get_statistics db), db).
Proof.
  intros H. split; [now apply execute_action_read_only_store | reflexivity].
Qed.

Lemma execute_action_read_only_witness :
  let db := run [create_default "a" "09:00"] empty_db in
  snd (_execute_action "list" (PDict [("status", PStr "completed")]) "09:05" db) = db.
Proof.
  intros db.
  refine (proj1 (execute_action_read_only "list" (PDict [("status", PStr "completed")])
                   "09:05" db _)).
  simpl. intuition discriminate.
Defined.

(** X20.  What an update through the dispatcher never touches.  Whatever
    the parameters, the update branch leaves the number of tasks, their ids,
    creation times and due dates as they were: a "due_date" among the
    parameters is not passed on to [update_task]. *)
Theorem execute_action_update_frame
    (params : pyval) (now : string) (db : tasks_db) :
  let db' := snd (_execute_action "update" params now db) in
  len db' = len db /\
  ids db' = ids db /\
  map created_at db' = map created_at db /\
  map due_date db' = map due_date db.
Proof.
  intros db'. subst db'.
  destruct params;
    try (rewrite (execute_action_non_dict in_memory "update");
         [now repeat split | discriminate | simpl; tauto]).
  destruct (truthy (match assoc "task_id" kvs with Some v => v | None => PNone end))
    eqn:Hid.
  - rewrite (execute_action_update_dict kvs now db Hid). cbn [snd].
    split; [apply update_task_length|]. split; [apply update_task_ids|].
    unfold update_task. destruct (find _ db); simpl; [|now split].
    split; apply map_mutate_first; intros x.
    + apply apply_updates_created_at.
    + now rewrite apply_updates_due_date.
  - destruct (execute_action_no_task_id in_memory kvs now db Hid) as [-> _].
    now repeat split.
Qed.

(** X21.  A task id given as text.  When the parameters carry a non-empty
    string (or a non-empty list or dictionary) as [task_id], the update and
    delete branches answer that the task was not found and leave the store
    as it was, even when a task with that number exists. *)
Theorem execute_action_text_task_id
    (kvs : list (string * pyval)) (i : pyval) (now : string) (db : tasks_db) :
  assoc "task_id" kvs = Some i ->
  truthy i = true ->
  numeric i = false ->
  _execute_action "update" (PDict kvs) now db = (TaskNotFound i, db) /\
  _execute_action "delete" (PDict kvs) now db = (TaskNotFound i, db).
Proof.
  intros Hi Ht Hn.
  assert (Hid : truthy (match assoc "task_id" kvs with Some v => v | None => PNone end)
                = true) by now rewrite Hi.
  split.
  - rewrite (execute_action_update_dict kvs now db Hid). rewrite Hi.
    rewrite update_task_not_found; [reflexivity|].
    apply find_all_false. intros x. now apply has_id_non_numeric.
  - rewrite (execute_action_delete_dict kvs now db Hid). rewrite Hi.
    rewrite delete_task_absent; [reflexivity|].
    apply find_all_false. intros x. now apply has_id_non_numeric.
Qed.

Lemma execute_action_text_task_id_witness :
  let db := run [create_default "a" "09:00"] empty_db in
  _execute_action "update"
    (PDict [("task_id", PStr "1"); ("status", PStr "completed")]) "09:05" db
  = (TaskNotFound (PStr "1"), db).
Proof.
  intros db.
  exact (proj1 (execute_action_text_task_id
                  [("task_id", PStr "1"); ("status", PStr "completed")] (PStr "1")
                  "09:05" db eq_refl eq_refl eq_refl)).
Defined.

(** X22.  Requests that only read.  For a request classified list,
    statistics or general, [process_request] leaves the store as it was and
    never consults the model for extraction: two models that agree on the
    response prompts give the same result, whatever the JSON parser. *)
Theorem process_request_read_only
    (generate_content : prompt -> exn + string)
    (json_loads : string -> exn + pyval)
    (user_request now : string) (db : tasks_db) :
  ~ In (action (_parse_user_request user_request)) ["create"; "update"; "delete"] ->
  snd (process_request generate_content json_loads user_request now db) = db /\
  forall generate_content' json_loads',
    (forall result text,
       generate_content' (ResponsePrompt result text)
       = generate_content (ResponsePrompt result text)) ->
    process_request generate_content' json_loads' user_request now db
    = process_request generate_content json_loads user_request now db.
Proof.
  intros H. unfold process_request.
  rewrite (needs_params_false _ H).
  pose proof (execute_action_read_only_store
                (action (_parse_user_request user_request)) (PDict []) now db H) as Hdb.
  destruct (_execute_action _ (PDict []) now db) as [result db'].
  simpl in Hdb. subst db'. split.
  - now destruct (generate_content _).
  - intros gc' jl' Hagree. now rewrite Hagree.
Qed.

Lemma process_request_read_only_witness :
  let db := run [create_default "a" "09:00"] empty_db in
  snd (process_request model_down json_rejects "Show me task statistics" "09:05" db)
  = db.
Proof.
  intros db.
  refine (proj1 (process_request_read_only model_down json_rejects
                   "Show me task statistics" "09:05" db _)).
  vm_compute. intuition discriminate.
Defined.

(** Fields of a task created through the dispatcher.  With a
    dictionary of parameters the create branch appends one task whose id is
    the length of the list plus one and whose status is "pending"; title,
    description and priority take "Untitled Task", the empty string and
    "medium" only when their key is absent, and a key that is present is
    stored as given, even with a null or empty value. *)
Theorem execute_action_create_fields
    (kvs : list (string * pyval)) (now : string) (db : tasks_db) :
  let param key default :=
    match assoc key kvs with Some v => v | None => default end in
  let t := {| id := len db + 1;
              title := param "title" (PStr "Untitled Task");
              description := param "description" (PStr "");
              priority := param "priority" (PStr "medium");
              due_date := param "due_date" PNone;
              status := PStr "pending";
              created_at := now;
              completed_at := PNone |} in
  _execute_action "create" (PDict kvs) now db = (TaskCreated t, (db ++ [t])%list).
Proof. reflexivity. Qed.

(** X23.  One request, at most one new task.  Whatever the request, the
    model and the parser, the store after [process_request] holds at most
    one task more than before. *)
Theorem process_request_adds_at_most_one
    (generate_content : prompt -> exn + string)
    (json_loads : string -> exn + pyval)
    (user_request now : string) (db : tasks_db) :
  len (snd (process_request generate_content json_loads user_request now db))
  <= len db + 1.
Proof.
  unfold process_request.
  match goal with
  | |- context [_execute_action ?a ?p now db] =>
      pose proof (execute_action_length a p now db) as Hlen;
      destruct (_execute_action a p now db) as [result db']
  end.
  simpl in Hlen. now destruct (generate_content _).
Qed.

(* ================================================================== *)
(** ** Properties of the CrewAI tool functions and of the start-up checks *)
(* ================================================================== *)

Import CrewAITools Startup.

Section ToolFacts.

Lemma update_task_nothing_given (i : pyval) (now : string) (db : tasks_db) :
  update_task i PNone PNone PNone PNone PNone now db = (get_task i db, db).
Proof.
  unfold update_task, get_task. destruct (find (has_id i) db) as [t|]; [|reflexivity].
  rewrite apply_updates_none. f_equal.
  apply mutate_first_same. intros x. apply apply_updates_none.
Qed.

Lemma update_task_status_priority_frame (i pr st : pyval) (now : string) (db : tasks_db) :
  let db' := snd (update_task i PNone PNone pr st PNone now db) in
  map title db' = map title db /\
  map description db' = map description db /\
  map due_date db' = map due_date db /\
  map created_at db' = map created_at db.
Proof.
  unfold update_task. destruct (find _ db); simpl; [|now repeat split].
  repeat split; apply map_mutate_first; intros x.
  - now rewrite apply_updates_title.
  - now rewrite apply_updates_description.
  - now rewrite apply_updates_due_date.
  - apply apply_updates_created_at.
Qed.

Lemma split_nonempty sep s : exists first rest, split sep s = first :: rest.
Proof.
  unfold split. destruct (split_go sep 0 "" s) as [|first rest] eqn:E.
  - now apply split_go_nonempty in E.
  - now exists first, rest.
Qed.

End ToolFacts.

(** X24.  What [update_task_tool] never touches.  Whatever the input text,
    the tool leaves the number of tasks and their ids, titles, descriptions,
    due dates and creation times as they were: it can change a status, a
    priority and [completed_at] only. *)
Theorem update_task_tool_frame
    (py_int : string -> string + Z) (task_input now : string) (db : tasks_db) :
  let db' := snd (update_task_tool py_int task_input now db) in
  len db' = len db /\
  ids db' = ids db /\
  map title db' = map title db /\
  map description db' = map description db /\
  map due_date db' = map due_date db /\
  map created_at db' = map created_at db.
Proof.
  unfold update_task_tool.
  destruct (map strip (split "," task_input)) as [|first rest]; [now repeat split|].
  destruct (py_int first) as [msg | task_id]; [now repeat split|].
  set (st := optional_part (first :: rest) 1).
  set (pr := optional_part (first :: rest) 2).
  pose proof (update_task_length db (PInt task_id) PNone PNone pr st PNone now) as Hlen.
  pose proof (update_task_ids db (PInt task_id) PNone PNone pr st PNone now) as Hids.
  pose proof (update_task_status_priority_frame (PInt task_id) pr st now db) as Hframe.
  destruct (update_task (PInt task_id) PNone PNone pr st PNone now db) as [[t|] db'];
    simpl in *; tauto.
Qed.

(** X25.  A bare id changes nothing.  When the input of [update_task_tool]
    holds no comma and [int] accepts it, the store is left exactly as it
    was; the tool still answers "updated successfully" when a task has that
    id, and "not found" otherwise. *)
Theorem update_task_tool_bare_id
    (py_int : string -> string + Z) (task_input now : string) (db : tasks_db)
    (task_id : Z) :
  str_in "," task_input = false ->
  py_int (strip task_input) = inr task_id ->
  update_task_tool py_int task_input now db
  = (match get_task (PInt task_id) db with
     | Some t => ToolUpdated task_id t
     | None => ToolNotFound task_id
     end, db).
Proof.
  intros Hcomma Hint. unfold update_task_tool, split.
  rewrite (split_go_single _ _ _ Hcomma). cbn [map append].
  rewrite Hint. cbn [optional_part nth_error].
  rewrite update_task_nothing_given.
  now destruct (get_task (PInt task_id) db).
Qed.

Lemma update_task_tool_bare_id_witness :
  let db := run [create_default "a" "09:00"] empty_db in
  exists t, update_task_tool int_ascii " 1 " "09:05" db = (ToolUpdated 1 t, db).
Proof.
  intros db.
  pose proof (update_task_tool_bare_id int_ascii " 1 " "09:05" db 1 eq_refl eq_refl)
    as H.
  simpl get_task in H. eexists. exact H.
Defined.

(** X26.  An id that is not a number.  When [int] rejects the text before
    the first comma (stripped), [update_task_tool] answers "Invalid input
    format" with the message of the error and leaves the store as it was. *)
Theorem update_task_tool_invalid_id
    (py_int : string -> string + Z) (task_input now : string) (db : tasks_db)
    (msg : string) :
  py_int (strip (hd "" (split "," task_input))) = inl msg ->
  update_task_tool py_int task_input now db = (ToolInvalidInput msg, db).
Proof.
  unfold update_task_tool.
  destruct (split_nonempty "," task_input) as (first & rest & ->).
  cbn [map hd]. now intros ->.
Qed.

Lemma update_task_tool_invalid_id_witness :
  let db := run [create_default "a" "09:00"] empty_db in
  update_task_tool int_ascii "one,completed" "09:05" db
  = (ToolInvalidInput "invalid literal for int() with base 10: 'one'", db).
Proof.
  intros db.
  exact (update_task_tool_invalid_id int_ascii "one,completed" "09:05" db
           "invalid literal for int() with base 10: 'one'" eq_refl).
Defined.

(** X27.  A blank status filter.  When the status given to
    [list_tasks_tool] is empty or whitespace only, the tool lists every task
    of the store. *)
Theorem list_tasks_tool_blank_filter (status : string) (db : tasks_db) :
  strip status = "" ->
  list_tasks_tool status db
  = match db with
    | [] => ToolText "No tasks found."
    | _ :: _ => ToolFound db
    end.
Proof.
  intros H. unfold list_tasks_tool. rewrite H. reflexivity.
Qed.

Lemma list_tasks_tool_blank_filter_witness :
  let db := run [create_default "a" "09:00"; update_status 1 "completed" "09:05"]
                empty_db in
  list_tasks_tool "   " db = ToolFound db.
Proof.
  intros db. exact (list_tasks_tool_blank_filter "   " db eq_refl).
Defined.

(** X28.  The start-up check and the agent's key.  [check_environment]
    returns True exactly when GEMINI_API_KEY, LANGFUSE_PUBLIC_KEY and
    LANGFUSE_SECRET_KEY are all set to non-empty values, whatever
    OPENAI_API_KEY is; and then [GoogleADKAgent.__init__] finds its key, the
    value of GEMINI_API_KEY, and does not raise. *)
Theorem check_environment_spec (env : environ) :
  (check_environment env = true <->
   truthy (getenv env "GEMINI_API_KEY") = true /\
   truthy (getenv env "LANGFUSE_PUBLIC_KEY") = true /\
   truthy (getenv env "LANGFUSE_SECRET_KEY") = true) /\
  (check_environment env = true ->
   init_api_key env = inr (getenv env "GEMINI_API_KEY")).
Proof.
  unfold check_environment, unset_vars, required_vars, init_api_key, py_or.
  simpl filter.
  destruct (truthy (getenv env "GEMINI_API_KEY")) eqn:E1,
    (truthy (getenv env "LANGFUSE_PUBLIC_KEY")) eqn:E2,
    (truthy (getenv env "LANGFUSE_SECRET_KEY")) eqn:E3; simpl;
    rewrite ?E1; simpl; intuition discriminate.
Qed.

(** X29.  A key the start-up check does not see.  With GEMINI_API_KEY unset
    or empty and GOOGLE_API_KEY set to a non-empty value,
    [GoogleADKAgent.__init__] accepts the GOOGLE_API_KEY value as its key,
    while [check_environment] of main.py returns False. *)
Theorem google_api_key_alone (env : environ) (key : string) :
  truthy (getenv env "GEMINI_API_KEY") = false ->
  env "GOOGLE_API_KEY" = Some key ->
  key <> "" ->
  init_api_key env = inr (PStr key) /\ check_environment env = false.
Proof.
  intros Hgem Hgoo Hkey.
  unfold init_api_key, py_or, check_environment, unset_vars, required_vars.
  simpl filter. rewrite Hgem. simpl.
  unfold getenv at 1 2. rewrite Hgoo.
  now rewrite (truthy_PStr_nonempty key Hkey).
Qed.

Lemma google_api_key_alone_witness :
  let env := environ_of [ ("GOOGLE_API_KEY", "k-123");
                          ("LANGFUSE_PUBLIC_KEY", "pk");
                          ("LANGFUSE_SECRET_KEY", "sk") ] in
  init_api_key env = inr (PStr "k-123") /\ check_environment env = false.
Proof.
  intros env.
  apply (google_api_key_alone env "k-123"); [reflexivity | reflexivity | discriminate].
Defined.

Lemma check_environment_spec_witness :
  let env := environ_of [ ("GEMINI_API_KEY", "g-123");
                          ("LANGFUSE_PUBLIC_KEY", "pk");
                          ("LANGFUSE_SECRET_KEY", "sk") ] in
  init_api_key env = inr (PStr "g-123").
Proof.
  intros env. exact (proj2 (check_environment_spec env) eq_refl).
Defined.
